(** * cert_chain: a hash-linked certificate registry

    Shallow embedding of [src/harik/cert_chain.py] and the properties its
    specification states about it.

    Layout:
    - [Sha256]      the digest [hashlib.sha256(..).hexdigest()] (FIPS 180-4);
    - [Py]          the Python values the program manipulates, with [repr],
                    [str], [dict.get], subscripting and iteration;
    - [Eff]         the state-and-exception monad in which the methods run;
    - [Blockchain]  the class [Blockchain] method by method;
    - the flows [mint_flow] and [transfer_flow];
    - the theorems. *)

From Stdlib Require Import ZArith String Ascii Bool Lia DecimalString List.
Import ListNotations.

Local Open Scope Z_scope.

(* ===================================================================== *)
(** ** SHA-256 *)
(* ===================================================================== *)

Module Sha256.

(** 32-bit words are kept in [Z]; every sum is reduced modulo 2^32. *)
Definition w32 (x : Z) : Z := x mod 4294967296.

Definition add32 (x y : Z) : Z := w32 (x + y).

Definition rotr (n x : Z) : Z :=
  Z.lor (Z.shiftr x n) (w32 (Z.shiftl x (32 - n))).

Definition not32 (x : Z) : Z := Z.lxor x 4294967295.

Definition Ch (x y z : Z) : Z := Z.lxor (Z.land x y) (Z.land (not32 x) z).

Definition Maj (x y z : Z) : Z :=
  Z.lxor (Z.lxor (Z.land x y) (Z.land x z)) (Z.land y z).

Definition bsig0 (x : Z) : Z := Z.lxor (Z.lxor (rotr 2 x) (rotr 13 x)) (rotr 22 x).
Definition bsig1 (x : Z) : Z := Z.lxor (Z.lxor (rotr 6 x) (rotr 11 x)) (rotr 25 x).
Definition ssig0 (x : Z) : Z := Z.lxor (Z.lxor (rotr 7 x) (rotr 18 x)) (Z.shiftr x 3).
Definition ssig1 (x : Z) : Z := Z.lxor (Z.lxor (rotr 17 x) (rotr 19 x)) (Z.shiftr x 10).

(** The constants are not tabulated but computed as FIPS 180-4 defines
    them: the first 32 bits of the fractional parts of the cube roots (for
    [K]) and of the square roots (for [H0]) of the first primes. *)
Definition is_prime (n : nat) : bool :=
  forallb (fun d => negb (Nat.eqb (Nat.modulo n d) 0)) (seq 2 (n - 2)).

Definition primes : list Z := map Z.of_nat (filter is_prime (seq 2 310)).

(** The largest [r] below [2 ^ bits] whose cube does not exceed [n]. *)
Fixpoint cube_root (bits : nat) (n r : Z) : Z :=
  match bits with
  | O => r
  | S b =>
      let r' := r + Z.shiftl 1 (Z.of_nat b) in
      cube_root b n (if r' * r' * r' <=? n then r' else r)
  end.

Definition K : list Z :=
  Eval vm_compute in
    map (fun p => w32 (cube_root 40 (Z.shiftl p 96) 0)) primes.

Definition H0 : list Z :=
  Eval vm_compute in
    map (fun p => w32 (Z.sqrt (Z.shiftl p 64))) (firstn 8 primes).

(** Padding: a 1 bit, zeros up to 56 modulo 64 bytes, then the bit length
    of the message as a 64-bit big-endian integer. *)
Definition be_bytes (n : nat) (x : Z) : list Z :=
  map (fun i => Z.land (Z.shiftr x (8 * Z.of_nat i)) 255) (rev (seq 0 n)).

Definition pad (msg : list Z) : list Z :=
  let len := Z.of_nat (length msg) in
  let zeros := Z.to_nat ((55 - len) mod 64) in
  msg ++ 128 :: repeat 0 zeros ++ be_bytes 8 (8 * len).

Fixpoint be_words (bs : list Z) : list Z :=
  match bs with
  | b3 :: b2 :: b1 :: b0 :: rest =>
      (b3 * 16777216 + b2 * 65536 + b1 * 256 + b0) :: be_words rest
  | _ => []
  end.

(** The working variables [a..h] together with the sliding window of the
    last sixteen words of the message schedule. *)
Record round_state : Type :=
  { vars : Z * Z * Z * Z * Z * Z * Z * Z; window : list Z }.

Definition next_word (win : list Z) : Z :=
  add32 (add32 (ssig1 (nth 14 win 0)) (nth 9 win 0))
        (add32 (ssig0 (nth 1 win 0)) (nth 0 win 0)).

Definition round (st : round_state) (k : Z) : round_state :=
  let '(a, b, c, d, e, f, g, h) := vars st in
  let wt := nth 0 (window st) 0 in
  let t1 := add32 (add32 (add32 h (bsig1 e)) (add32 (Ch e f g) k)) wt in
  let t2 := add32 (bsig0 a) (Maj a b c) in
  {| vars := (add32 t1 t2, a, b, c, add32 d t1, e, f, g);
     window := tl (window st) ++ [next_word (window st)] |}.

Definition compress (hs : list Z) (block : list Z) : list Z :=
  match hs with
  | [a; b; c; d; e; f; g; h] =>
      let st := fold_left round K
                  {| vars := (a, b, c, d, e, f, g, h); window := be_words block |} in
      let '(a', b', c', d', e', f', g', h') := vars st in
      [ add32 a a'; add32 b b'; add32 c c'; add32 d d';
        add32 e e'; add32 f f'; add32 g g'; add32 h h' ]
  | _ => hs
  end.

Fixpoint blocks (n : nat) (bs : list Z) : list (list Z) :=
  match n with
  | O => []
  | S n' => firstn 64 bs :: blocks n' (skipn 64 bs)
  end.

Definition digest (msg : list Z) : list Z :=
  let p := pad msg in
  let hs := fold_left compress (blocks (length p / 64) p) H0 in
  flat_map (be_bytes 4) hs.

Definition hex_digit (x : Z) : ascii :=
  ascii_of_nat (Z.to_nat (if x <? 10 then 48 + x else 87 + x)).

Fixpoint hex (bs : list Z) : string :=
  match bs with
  | [] => EmptyString
  | b :: rest => String (hex_digit (b / 16)) (String (hex_digit (b mod 16)) (hex rest))
  end.

Definition bytes_of_string (s : string) : list Z :=
  map (fun c => Z.of_nat (nat_of_ascii c)) (list_ascii_of_string s).

(** [sha256(s.encode()).hexdigest()], for a text kept as its UTF-8 bytes. *)
Definition hexdigest (s : string) : string := hex (digest (bytes_of_string s)).

End Sha256.

Infix "+++" := String.append (at level 60, right associativity).

(* ===================================================================== *)
(** ** Python values *)
(* ===================================================================== *)

Module Py.

(** The program obtains floats from [time()] only and never computes with
    them: it prints them into the hashed text and stores them.  A float is
    therefore kept by the text [repr] gives it (the shortest decimal that
    reads back as the same float). *)
Inductive pyfloat : Type := PyFloat (text : string).

(** Values that live in a block: what the flows build and what [json.load]
    can return.  A [dict] keeps its insertion order, which [repr] exposes;
    keys are [str] and distinct. *)
#[warnings="-register-all"]
Inductive value : Type :=
| VNone
| VBool (b : bool)
| VInt (z : Z)
| VFloat (f : pyfloat)
| VStr (s : string)
| VList (l : list value)
| VDict (d : list (string * value)).

(** Exceptions, by class; all of them derive from [Exception]. *)
Inductive exn : Type :=
| IndexError | TypeError | AttributeError | KeyError
| ValueError | FileNotFoundError | OSError.

Inductive result (A : Type) : Type :=
| Ok (a : A)
| Raise (e : exn).
Arguments Ok {A} a.
Arguments Raise {A} e.

Definition squote : ascii := ascii_of_nat 39.
Definition dquote : ascii := ascii_of_nat 34.
Definition backslash : ascii := ascii_of_nat 92.

Fixpoint contains (c : ascii) (s : string) : bool :=
  match s with
  | EmptyString => false
  | String x rest => Ascii.eqb x c || contains c rest
  end.

Definition hex2 (n : nat) : string :=
  String (Sha256.hex_digit (Z.of_nat n / 16))
    (String (Sha256.hex_digit (Z.of_nat n mod 16)) EmptyString).

(** The code points above 127 that [str.isprintable] refuses, as closed
    ranges: the categories Cc, Cf, Cs, Co, Cn, Zl, Zp and Zs of the Unicode
    database 14.0.0 (the one of CPython 3.11). *)
Definition not_printable : list (N * N) :=
  [
    (128, 160); (173, 173); (888, 889); (896, 899); (907, 907); (909, 909);
    (930, 930); (1328, 1328); (1367, 1368); (1419, 1420); (1424, 1424);
    (1480, 1487); (1515, 1518); (1525, 1541); (1564, 1564); (1757, 1757);
    (1806, 1807); (1867, 1868); (1970, 1983); (2043, 2044); (2094, 2095);
    (2111, 2111); (2140, 2141); (2143, 2143); (2155, 2159); (2191, 2199);
    (2274, 2274); (2436, 2436); (2445, 2446); (2449, 2450); (2473, 2473);
    (2481, 2481); (2483, 2485); (2490, 2491); (2501, 2502); (2505, 2506);
    (2511, 2518); (2520, 2523); (2526, 2526); (2532, 2533); (2559, 2560);
    (2564, 2564); (2571, 2574); (2577, 2578); (2601, 2601); (2609, 2609);
    (2612, 2612); (2615, 2615); (2618, 2619); (2621, 2621); (2627, 2630);
    (2633, 2634); (2638, 2640); (2642, 2648); (2653, 2653); (2655, 2661);
    (2679, 2688); (2692, 2692); (2702, 2702); (2706, 2706); (2729, 2729);
    (2737, 2737); (2740, 2740); (2746, 2747); (2758, 2758); (2762, 2762);
    (2766, 2767); (2769, 2783); (2788, 2789); (2802, 2808); (2816, 2816);
    (2820, 2820); (2829, 2830); (2833, 2834); (2857, 2857); (2865, 2865);
    (2868, 2868); (2874, 2875); (2885, 2886); (2889, 2890); (2894, 2900);
    (2904, 2907); (2910, 2910); (2916, 2917); (2936, 2945); (2948, 2948);
    (2955, 2957); (2961, 2961); (2966, 2968); (2971, 2971); (2973, 2973);
    (2976, 2978); (2981, 2983); (2987, 2989); (3002, 3005); (3011, 3013);
    (3017, 3017); (3022, 3023); (3025, 3030); (3032, 3045); (3067, 3071);
    (3085, 3085); (3089, 3089); (3113, 3113); (3130, 3131); (3141, 3141);
    (3145, 3145); (3150, 3156); (3159, 3159); (3163, 3164); (3166, 3167);
    (3172, 3173); (3184, 3190); (3213, 3213); (3217, 3217); (3241, 3241);
    (3252, 3252); (3258, 3259); (3269, 3269); (3273, 3273); (3278, 3284);
    (3287, 3292); (3295, 3295); (3300, 3301); (3312, 3312); (3315, 3327);
    (3341, 3341); (3345, 3345); (3397, 3397); (3401, 3401); (3408, 3411);
    (3428, 3429); (3456, 3456); (3460, 3460); (3479, 3481); (3506, 3506);
    (3516, 3516); (3518, 3519); (3527, 3529); (3531, 3534); (3541, 3541);
    (3543, 3543); (3552, 3557); (3568, 3569); (3573, 3584); (3643, 3646);
    (3676, 3712); (3715, 3715); (3717, 3717); (3723, 3723); (3748, 3748);
    (3750, 3750); (3774, 3775); (3781, 3781); (3783, 3783); (3790, 3791);
    (3802, 3803); (3808, 3839); (3912, 3912); (3949, 3952); (3992, 3992);
    (4029, 4029); (4045, 4045); (4059, 4095); (4294, 4294); (4296, 4300);
    (4302, 4303); (4681, 4681); (4686, 4687); (4695, 4695); (4697, 4697);
    (4702, 4703); (4745, 4745); (4750, 4751); (4785, 4785); (4790, 4791);
    (4799, 4799); (4801, 4801); (4806, 4807); (4823, 4823); (4881, 4881);
    (4886, 4887); (4955, 4956); (4989, 4991); (5018, 5023); (5110, 5111);
    (5118, 5119); (5760, 5760); (5789, 5791); (5881, 5887); (5910, 5918);
    (5943, 5951); (5972, 5983); (5997, 5997); (6001, 6001); (6004, 6015);
    (6110, 6111); (6122, 6127); (6138, 6143); (6158, 6158); (6170, 6175);
    (6265, 6271); (6315, 6319); (6390, 6399); (6431, 6431); (6444, 6447);
    (6460, 6463); (6465, 6467); (6510, 6511); (6517, 6527); (6572, 6575);
    (6602, 6607); (6619, 6621); (6684, 6685); (6751, 6751); (6781, 6782);
    (6794, 6799); (6810, 6815); (6830, 6831); (6863, 6911); (6989, 6991);
    (7039, 7039); (7156, 7163); (7224, 7226); (7242, 7244); (7305, 7311);
    (7355, 7356); (7368, 7375); (7419, 7423); (7958, 7959); (7966, 7967);
    (8006, 8007); (8014, 8015); (8024, 8024); (8026, 8026); (8028, 8028);
    (8030, 8030); (8062, 8063); (8117, 8117); (8133, 8133); (8148, 8149);
    (8156, 8156); (8176, 8177); (8181, 8181); (8191, 8207); (8232, 8239);
    (8287, 8303); (8306, 8307); (8335, 8335); (8349, 8351); (8385, 8399);
    (8433, 8447); (8588, 8591); (9255, 9279); (9291, 9311); (11124, 11125);
    (11158, 11158); (11508, 11512); (11558, 11558); (11560, 11564);
    (11566, 11567); (11624, 11630); (11633, 11646); (11671, 11679);
    (11687, 11687); (11695, 11695); (11703, 11703); (11711, 11711);
    (11719, 11719); (11727, 11727); (11735, 11735); (11743, 11743);
    (11870, 11903); (11930, 11930); (12020, 12031); (12246, 12271);
    (12284, 12288); (12352, 12352); (12439, 12440); (12544, 12548);
    (12592, 12592); (12687, 12687); (12772, 12783); (12831, 12831);
    (42125, 42127); (42183, 42191); (42540, 42559); (42744, 42751);
    (42955, 42959); (42962, 42962); (42964, 42964); (42970, 42993);
    (43053, 43055); (43066, 43071); (43128, 43135); (43206, 43213);
    (43226, 43231); (43348, 43358); (43389, 43391); (43470, 43470);
    (43482, 43485); (43519, 43519); (43575, 43583); (43598, 43599);
    (43610, 43611); (43715, 43738); (43767, 43776); (43783, 43784);
    (43791, 43792); (43799, 43807); (43815, 43815); (43823, 43823);
    (43884, 43887); (44014, 44015); (44026, 44031); (55204, 55215);
    (55239, 55242); (55292, 63743); (64110, 64111); (64218, 64255);
    (64263, 64274); (64280, 64284); (64311, 64311); (64317, 64317);
    (64319, 64319); (64322, 64322); (64325, 64325); (64451, 64466);
    (64912, 64913); (64968, 64974); (64976, 65007); (65050, 65055);
    (65107, 65107); (65127, 65127); (65132, 65135); (65141, 65141);
    (65277, 65280); (65471, 65473); (65480, 65481); (65488, 65489);
    (65496, 65497); (65501, 65503); (65511, 65511); (65519, 65531);
    (65534, 65535); (65548, 65548); (65575, 65575); (65595, 65595);
    (65598, 65598); (65614, 65615); (65630, 65663); (65787, 65791);
    (65795, 65798); (65844, 65846); (65935, 65935); (65949, 65951);
    (65953, 65999); (66046, 66175); (66205, 66207); (66257, 66271);
    (66300, 66303); (66340, 66348); (66379, 66383); (66427, 66431);
    (66462, 66462); (66500, 66503); (66518, 66559); (66718, 66719);
    (66730, 66735); (66772, 66775); (66812, 66815); (66856, 66863);
    (66916, 66926); (66939, 66939); (66955, 66955); (66963, 66963);
    (66966, 66966); (66978, 66978); (66994, 66994); (67002, 67002);
    (67005, 67071); (67383, 67391); (67414, 67423); (67432, 67455);
    (67462, 67462); (67505, 67505); (67515, 67583); (67590, 67591);
    (67593, 67593); (67638, 67638); (67641, 67643); (67645, 67646);
    (67670, 67670); (67743, 67750); (67760, 67807); (67827, 67827);
    (67830, 67834); (67868, 67870); (67898, 67902); (67904, 67967);
    (68024, 68027); (68048, 68049); (68100, 68100); (68103, 68107);
    (68116, 68116); (68120, 68120); (68150, 68151); (68155, 68158);
    (68169, 68175); (68185, 68191); (68256, 68287); (68327, 68330);
    (68343, 68351); (68406, 68408); (68438, 68439); (68467, 68471);
    (68498, 68504); (68509, 68520); (68528, 68607); (68681, 68735);
    (68787, 68799); (68851, 68857); (68904, 68911); (68922, 69215);
    (69247, 69247); (69290, 69290); (69294, 69295); (69298, 69375);
    (69416, 69423); (69466, 69487); (69514, 69551); (69580, 69599);
    (69623, 69631); (69710, 69713); (69750, 69758); (69821, 69821);
    (69827, 69839); (69865, 69871); (69882, 69887); (69941, 69941);
    (69960, 69967); (70007, 70015); (70112, 70112); (70133, 70143);
    (70162, 70162); (70207, 70271); (70279, 70279); (70281, 70281);
    (70286, 70286); (70302, 70302); (70314, 70319); (70379, 70383);
    (70394, 70399); (70404, 70404); (70413, 70414); (70417, 70418);
    (70441, 70441); (70449, 70449); (70452, 70452); (70458, 70458);
    (70469, 70470); (70473, 70474); (70478, 70479); (70481, 70486);
    (70488, 70492); (70500, 70501); (70509, 70511); (70517, 70655);
    (70748, 70748); (70754, 70783); (70856, 70863); (70874, 71039);
    (71094, 71095); (71134, 71167); (71237, 71247); (71258, 71263);
    (71277, 71295); (71354, 71359); (71370, 71423); (71451, 71452);
    (71468, 71471); (71495, 71679); (71740, 71839); (71923, 71934);
    (71943, 71944); (71946, 71947); (71956, 71956); (71959, 71959);
    (71990, 71990); (71993, 71994); (72007, 72015); (72026, 72095);
    (72104, 72105); (72152, 72153); (72165, 72191); (72264, 72271);
    (72355, 72367); (72441, 72703); (72713, 72713); (72759, 72759);
    (72774, 72783); (72813, 72815); (72848, 72849); (72872, 72872);
    (72887, 72959); (72967, 72967); (72970, 72970); (73015, 73017);
    (73019, 73019); (73022, 73022); (73032, 73039); (73050, 73055);
    (73062, 73062); (73065, 73065); (73103, 73103); (73106, 73106);
    (73113, 73119); (73130, 73439); (73465, 73647); (73649, 73663);
    (73714, 73726); (74650, 74751); (74863, 74863); (74869, 74879);
    (75076, 77711); (77811, 77823); (78895, 82943); (83527, 92159);
    (92729, 92735); (92767, 92767); (92778, 92781); (92863, 92863);
    (92874, 92879); (92910, 92911); (92918, 92927); (92998, 93007);
    (93018, 93018); (93026, 93026); (93048, 93052); (93072, 93759);
    (93851, 93951); (94027, 94030); (94088, 94094); (94112, 94175);
    (94181, 94191); (94194, 94207); (100344, 100351); (101590, 101631);
    (101641, 110575); (110580, 110580); (110588, 110588); (110591, 110591);
    (110883, 110927); (110931, 110947); (110952, 110959); (111356, 113663);
    (113771, 113775); (113789, 113791); (113801, 113807); (113818, 113819);
    (113824, 118527); (118574, 118575); (118599, 118607); (118724, 118783);
    (119030, 119039); (119079, 119080); (119155, 119162); (119275, 119295);
    (119366, 119519); (119540, 119551); (119639, 119647); (119673, 119807);
    (119893, 119893); (119965, 119965); (119968, 119969); (119971, 119972);
    (119975, 119976); (119981, 119981); (119994, 119994); (119996, 119996);
    (120004, 120004); (120070, 120070); (120075, 120076); (120085, 120085);
    (120093, 120093); (120122, 120122); (120127, 120127); (120133, 120133);
    (120135, 120137); (120145, 120145); (120486, 120487); (120780, 120781);
    (121484, 121498); (121504, 121504); (121520, 122623); (122655, 122879);
    (122887, 122887); (122905, 122906); (122914, 122914); (122917, 122917);
    (122923, 123135); (123181, 123183); (123198, 123199); (123210, 123213);
    (123216, 123535); (123567, 123583); (123642, 123646); (123648, 124895);
    (124903, 124903); (124908, 124908); (124911, 124911); (124927, 124927);
    (125125, 125126); (125143, 125183); (125260, 125263); (125274, 125277);
    (125280, 126064); (126133, 126208); (126270, 126463); (126468, 126468);
    (126496, 126496); (126499, 126499); (126501, 126502); (126504, 126504);
    (126515, 126515); (126520, 126520); (126522, 126522); (126524, 126529);
    (126531, 126534); (126536, 126536); (126538, 126538); (126540, 126540);
    (126544, 126544); (126547, 126547); (126549, 126550); (126552, 126552);
    (126554, 126554); (126556, 126556); (126558, 126558); (126560, 126560);
    (126563, 126563); (126565, 126566); (126571, 126571); (126579, 126579);
    (126584, 126584); (126589, 126589); (126591, 126591); (126602, 126602);
    (126620, 126624); (126628, 126628); (126634, 126634); (126652, 126703);
    (126706, 126975); (127020, 127023); (127124, 127135); (127151, 127152);
    (127168, 127168); (127184, 127184); (127222, 127231); (127406, 127461);
    (127491, 127503); (127548, 127551); (127561, 127567); (127570, 127583);
    (127590, 127743); (128728, 128732); (128749, 128751); (128765, 128767);
    (128884, 128895); (128985, 128991); (129004, 129007); (129009, 129023);
    (129036, 129039); (129096, 129103); (129114, 129119); (129160, 129167);
    (129198, 129199); (129202, 129279); (129620, 129631); (129646, 129647);
    (129653, 129655); (129661, 129663); (129671, 129679); (129709, 129711);
    (129723, 129727); (129734, 129743); (129754, 129759); (129768, 129775);
    (129783, 129791); (129939, 129939); (129995, 130031); (130042, 131071);
    (173792, 173823); (177977, 177983); (178206, 178207); (183970, 183983);
    (191457, 194559); (195102, 196607); (201547, 917759); (918000, 1114111) ]%N.

Definition isprintable (cp : N) : bool :=
  negb (existsb (fun r => N.leb (fst r) cp && N.leb cp (snd r)) not_printable).

Fixpoint hex_digits (width : nat) (n : N) (acc : string) : string :=
  match width with
  | O => acc
  | S k => hex_digits k (N.div n 16)
             (String (Sha256.hex_digit (Z.of_N (N.modulo n 16))) acc)
  end.

(** How [repr] writes a character it does not keep. *)
Definition escape (cp : N) : string :=
  if N.ltb cp 256 then "\x" +++ hex_digits 2 cp EmptyString
  else if N.ltb cp 65536 then "\u" +++ hex_digits 4 cp EmptyString
  else "\U" +++ hex_digits 8 cp EmptyString.

(** [repr] of one ASCII character inside the quotes [q]. *)
Definition repr_char (q c : ascii) : string :=
  let n := nat_of_ascii c in
  if Ascii.eqb c q || Ascii.eqb c backslash then String backslash (String c EmptyString)
  else if Nat.eqb n 9 then "\t"
  else if Nat.eqb n 10 then "\n"
  else if Nat.eqb n 13 then "\r"
  else if Nat.ltb n 32 || Nat.eqb n 127 then "\x" +++ hex2 n
  else String c EmptyString.

(** The low six bits of a continuation byte [10xxxxxx]. *)
Definition cont (c : ascii) : option N :=
  let n := N_of_ascii c in
  if N.leb 128 n && N.ltb n 192 then Some (n - 128)%N else None.

(** A character above 127, given by its code point and its UTF-8 bytes:
    kept when printable, escaped otherwise. *)
Definition repr_wide (cp : N) (bytes : string) : string :=
  if isprintable cp then bytes else escape cp.

(** [repr] of the characters of a text kept as UTF-8 bytes.  A byte that
    starts no well-formed sequence (no [str] encodes to one) is kept. *)
Fixpoint repr_chars (q : ascii) (s : string) : string :=
  match s with
  | EmptyString => EmptyString
  | String c0 r0 =>
      let n0 := N_of_ascii c0 in
      let kept := fun _ : unit => String c0 (repr_chars q r0) in
      if N.ltb n0 128 then repr_char q c0 +++ repr_chars q r0
      else
        match r0 with
        | EmptyString => kept tt
        | String c1 r1 =>
            match cont c1 with
            | None => kept tt
            | Some x1 =>
                if N.leb 192 n0 && N.ltb n0 224 then
                  repr_wide ((n0 - 192) * 64 + x1)
                    (String c0 (String c1 EmptyString))
                  +++ repr_chars q r1
                else
                  match r1 with
                  | EmptyString => kept tt
                  | String c2 r2 =>
                      match cont c2 with
                      | None => kept tt
                      | Some x2 =>
                          if N.leb 224 n0 && N.ltb n0 240 then
                            repr_wide ((n0 - 224) * 4096 + x1 * 64 + x2)
                              (String c0 (String c1 (String c2 EmptyString)))
                            +++ repr_chars q r2
                          else
                            match r2 with
                            | EmptyString => kept tt
                            | String c3 r3 =>
                                match cont c3 with
                                | None => kept tt
                                | Some x3 =>
                                    if N.leb 240 n0 && N.ltb n0 248 then
                                      repr_wide
                                        ((n0 - 240) * 262144 + x1 * 4096
                                         + x2 * 64 + x3)
                                        (String c0 (String c1 (String c2
                                           (String c3 EmptyString))))
                                      +++ repr_chars q r3
                                    else kept tt
                                end
                            end
                      end
                  end
            end
        end
  end%N.

(** [repr] of a [str]: single quotes unless the text has a single quote
    and no double quote; the quote and the backslash are escaped, control
    characters are written [\t], [\n], [\r] or [\xhh], and a character
    above 127 is kept when it is printable and written [\xhh], [\uhhhh] or
    [\Uhhhhhhhh] when it is not. *)
Definition repr_str (s : string) : string :=
  let q := if contains squote s && negb (contains dquote s) then dquote else squote in
  String q (repr_chars q s +++ String q EmptyString).

Definition repr_int (z : Z) : string := NilZero.string_of_int (Z.to_int z).

Fixpoint repr (v : value) : string :=
  match v with
  | VNone => "None"
  | VBool true => "True"
  | VBool false => "False"
  | VInt z => repr_int z
  | VFloat (PyFloat t) => t
  | VStr s => repr_str s
  | VList l => "[" +++ String.concat ", " (map repr l) +++ "]"
  | VDict d =>
      "{" +++ String.concat ", "
                (map (fun kv => match kv with
                                | (k, x) => repr_str k +++ ": " +++ repr x
                                end) d)
          +++ "}"
  end.

(** [str(v)], which is also what an f-string field [{v}] prints. *)
Definition str (v : value) : string :=
  match v with
  | VStr s => s
  | _ => repr v
  end.

(** [s * n] on a [str]. *)
Fixpoint str_mul (s : string) (n : nat) : string :=
  match n with
  | O => EmptyString
  | S n' => s +++ str_mul s n'
  end.

Fixpoint lookup (k : string) (d : list (string * value)) : option value :=
  match d with
  | [] => None
  | (k', x) :: rest => if String.eqb k' k then Some x else lookup k rest
  end.

(** [v.get(k, default)]: only a [dict] has the method. *)
Definition get (v : value) (k : string) (default : value) : result value :=
  match v with
  | VDict d => Ok (match lookup k d with Some x => x | None => default end)
  | _ => Raise AttributeError
  end.

(** [v[k]] for a [str] key. *)
Definition getitem (v : value) (k : string) : result value :=
  match v with
  | VDict d => match lookup k d with Some x => Ok x | None => Raise KeyError end
  | _ => Raise TypeError
  end.

(** [v == s] where [s] is a [str]: only an equal [str] compares equal. *)
Definition eq_str (v : value) (s : string) : bool :=
  match v with
  | VStr s' => String.eqb s' s
  | _ => false
  end.

(** The items [for b in v] runs over: the elements of a list, the keys of
    a dict, the characters of a str; the other values are not iterable. *)
Definition iter (v : value) : result (list value) :=
  match v with
  | VList l => Ok l
  | VDict d => Ok (map (fun kv => VStr (fst kv)) d)
  | VStr s => Ok (map (fun c => VStr (String c EmptyString)) (list_ascii_of_string s))
  | _ => Raise TypeError
  end.

End Py.
Import Py.

(** [@dataclass class Block].  The annotations of a dataclass are not
    checked when an instance is built, so each field holds any value. *)
Record Block : Type :=
  { index : value;
    timestamp : value;
    prev_hash : value;
    data : value;
    current_hash : value }.

Definition Block_fields : list string :=
  ["index"; "timestamp"; "prev_hash"; "data"; "current_hash"]%string.

(** [asdict(b)]: the fields in declaration order, the values copied. *)
Definition asdict (b : Block) : value :=
  VDict [ ("index", index b); ("timestamp", timestamp b);
          ("prev_hash", prev_hash b); ("data", data b);
          ("current_hash", current_hash b) ]%string.

(** The call [Block] with the keyword arguments of [b]: [b] has to be a
    mapping; a key that is not a field, or a
    field without a key, is a [TypeError]. *)
Definition Block_kwargs (b : value) : result Block :=
  match b with
  | VDict d =>
      if forallb (fun k => existsb (String.eqb k) Block_fields) (map fst d) then
        match lookup "index" d, lookup "timestamp" d, lookup "prev_hash" d,
              lookup "data" d, lookup "current_hash" d with
        | Some i, Some t, Some p, Some x, Some c => Ok (Build_Block i t p x c)
        | _, _, _, _, _ => Raise TypeError
        end
      else Raise TypeError
  | _ => Raise TypeError
  end.

(* ===================================================================== *)
(** ** State and effects *)
(* ===================================================================== *)

(** What [CHAIN_FILE] holds: nothing, something [json.load] rejects, or a
    JSON document, kept as the value [json.load] returns for it.  On the
    values above [json.dump] followed by [json.load] is the identity.
    [Blocked] is a path that exists and that [open] refuses to read (a
    directory, a file without read permission). *)
Inductive file_state : Type :=
| NoFile
| Unreadable
| Json (v : value)
| Blocked.

(** What the program tells the user, one constructor per message. *)
Inductive event : Type :=
| LoadFailed (e : exn)
| MintError (e : exn)
| AlreadyRegistered (cert_hash : string)
| Minted (idx : value) (cert_hash : string)
| NoRecord
| CurrentOwner (owner : value)
| TransferRecorded (idx : value).

Record World : Type :=
  { chain : list Block;           (* [self.chain] of the one [Blockchain] *)
    chain_file : file_state;      (* the file [CHAIN_FILE] *)
    files : string -> option string;  (* the other regular files, by path *)
    wall : nat -> pyfloat;        (* the successive readings of [time()] *)
    ticks : nat;                  (* how many readings were taken *)
    console : list event }.       (* messages printed, oldest first *)

Module Eff.

Definition M (A : Type) : Type := World -> result A * World.

Definition ret {A} (a : A) : M A := fun w => (Ok a, w).

Definition raise {A} (e : exn) : M A := fun w => (Raise e, w).

Definition bind {A B} (m : M A) (k : A -> M B) : M B :=
  fun w => match m w with
           | (Ok a, w') => k a w'
           | (Raise e, w') => (Raise e, w')
           end.

(** [try: m  except Exception as e: h e]. *)
Definition try_except {A} (m : M A) (h : exn -> M A) : M A :=
  fun w => match m w with
           | (Ok a, w') => (Ok a, w')
           | (Raise e, w') => h e w'
           end.

Definition lift {A} (r : result A) : M A := fun w => (r, w).

Definition get_chain : M (list Block) := fun w => (Ok (chain w), w).

Definition set_chain (c : list Block) : M unit :=
  fun w => (Ok tt, {| chain := c; chain_file := chain_file w; files := files w;
                      wall := wall w; ticks := ticks w; console := console w |}).

Definition write_chain_file (v : value) : M unit :=
  fun w => (Ok tt, {| chain := chain w; chain_file := Json v; files := files w;
                      wall := wall w; ticks := ticks w; console := console w |}).

Definition print (e : event) : M unit :=
  fun w => (Ok tt, {| chain := chain w; chain_file := chain_file w; files := files w;
                      wall := wall w; ticks := ticks w;
                      console := console w ++ [e] |}).

(** [time()]: the next reading of the wall clock. *)
Definition time : M pyfloat :=
  fun w => (Ok (wall w (ticks w)),
            {| chain := chain w; chain_file := chain_file w; files := files w;
               wall := wall w; ticks := S (ticks w); console := console w |}).

End Eff.
Import Eff.

Notation "x <- m ;; k" := (bind m (fun x => k))
  (at level 61, m at next level, right associativity).
Notation "m ;; k" := (bind m (fun _ => k))
  (at level 61, right associativity).

Fixpoint mapM {A B} (f : A -> result B) (l : list A) : result (list B) :=
  match l with
  | [] => Ok []
  | a :: rest =>
      match f a with
      | Raise e => Raise e
      | Ok b => match mapM f rest with
                | Raise e => Raise e
                | Ok bs => Ok (b :: bs)
                end
      end
  end.

(* ===================================================================== *)
(** ** class Blockchain *)
(* ===================================================================== *)

Definition genesis_data : value :=
  VDict [ ("type", VStr "GENESIS");
          ("note", VStr "Decentralized Certificate Registry") ]%string.

Definition serialize_chain (c : list Block) : value := VList (map asdict c).

(** [any(b.data.get("cert_hash") == cert_hash for b in chain)]: stops at
    the first match; a payload without [get] raises. *)
Fixpoint any_cert_hash (c : list Block) (cert_hash : string) : result bool :=
  match c with
  | [] => Ok false
  | b :: rest =>
      match Py.get (data b) "cert_hash" VNone with
      | Raise e => Raise e
      | Ok v => if eq_str v cert_hash then Ok true else any_cert_hash rest cert_hash
      end
  end.

(** [[asdict(b) for b in chain if b.data.get("cert_hash") == cert_hash]]. *)
Fixpoint history_of (c : list Block) (cert_hash : string) : result (list value) :=
  match c with
  | [] => Ok []
  | b :: rest =>
      match Py.get (data b) "cert_hash" VNone with
      | Raise e => Raise e
      | Ok v =>
          match history_of rest cert_hash with
          | Raise e => Raise e
          | Ok hs => Ok (if eq_str v cert_hash then asdict b :: hs else hs)
          end
      end
  end.

(** The text [compute_hash] digests:
    [f"{repr(data)}|{prev_hash}|{len(self.chain)}|{time()}"]. *)
Definition hash_payload (d prev : value) (len : nat) (t : pyfloat) : string :=
  repr d +++ "|" +++ str prev +++ "|" +++ repr_int (Z.of_nat len)
         +++ "|" +++ repr (VFloat t).

(** [chain[-1]], when there is one. *)
Fixpoint last_opt (c : list Block) : option Block :=
  match c with
  | [] => None
  | [b] => Some b
  | _ :: rest => last_opt rest
  end.

Module Blockchain.

Definition serialize : M value :=
  c <- get_chain ;; ret (serialize_chain c).

(** [_save] when [open] lets the file be written; [_save_io] below also
    covers the write that fails. *)
Definition _save : M unit :=
  v <- serialize ;; write_chain_file v.

(** [open(CHAIN_FILE)] then [json.load]. *)
Definition json_load : M value :=
  fun w => match chain_file w with
           | NoFile => (Raise FileNotFoundError, w)
           | Unreadable => (Raise ValueError, w)
           | Json v => (Ok v, w)
           | Blocked => (Raise OSError, w)
           end.

Definition _load : M unit :=
  raw <- json_load ;;
  items <- lift (iter raw) ;;
  bs <- lift (mapM Block_kwargs items) ;;
  set_chain bs.

Definition _create_genesis : M unit :=
  let h := Sha256.hexdigest (repr genesis_data) in
  t <- time ;;
  set_chain [ Build_Block (VInt 0) (VFloat t) (VStr (str_mul "0" 64)) genesis_data (VStr h) ] ;;
  _save.

Definition path_exists : M bool :=
  fun w => (Ok (match chain_file w with NoFile => false | _ => true end), w).

Definition __init__ : M unit :=
  set_chain [] ;;
  present <- path_exists ;;
  if (present : bool) then
    try_except _load (fun e => print (LoadFailed e) ;; _create_genesis)
  else _create_genesis.

Definition last_block : M Block :=
  c <- get_chain ;;
  match last_opt c with
  | Some b => ret b
  | None => raise IndexError
  end.

Definition compute_hash (d : value) (prev : value) : M string :=
  c <- get_chain ;;
  t <- time ;;
  ret (Sha256.hexdigest (hash_payload d prev (length c) t)).

Definition add_block (d : value) : M Block :=
  lb <- last_block ;;
  let prev := current_hash lb in
  h <- compute_hash d prev ;;
  c <- get_chain ;;
  t <- time ;;
  let block := Build_Block (VInt (Z.of_nat (length c))) (VFloat t) prev d (VStr h) in
  set_chain (c ++ [block]) ;;
  _save ;;
  ret block.

Definition has_cert_hash (cert_hash : string) : M bool :=
  c <- get_chain ;; lift (any_cert_hash c cert_hash).

Definition history (cert_hash : string) : M (list value) :=
  c <- get_chain ;; lift (history_of c cert_hash).

End Blockchain.
Import Blockchain.

(* ===================================================================== *)
(** ** The flows *)
(* ===================================================================== *)

Definition file_sha256 (path : string) : M string :=
  fun w => match files w path with
           | Some content => (Ok (Sha256.hexdigest content), w)
           | None => (Raise FileNotFoundError, w)
           end.

(** The fingerprint [mint_flow] calls [combined]. *)
Definition cert_fingerprint (fhash student course year : string) : string :=
  Sha256.hexdigest (fhash +++ "|" +++ student +++ "|" +++ course +++ "|" +++ year).

Definition mint_data (combined fhash student course year : string) : value :=
  VDict [ ("type", VStr "MINT");
          ("cert_hash", VStr combined);
          ("file_hash", VStr fhash);
          ("student_name", VStr student);
          ("course", VStr course);
          ("year", VStr year);
          ("owner", VStr student) ]%string.

(** The answers to the four prompts are the arguments. *)
Definition mint_flow (student course year file_path : string) : M unit :=
  got <- try_except (fhash <- file_sha256 file_path ;; ret (Some fhash))
                    (fun e => print (MintError e) ;; ret None) ;;
  match got with
  | None => ret tt
  | Some fhash =>
      let combined := cert_fingerprint fhash student course year in
      dup <- has_cert_hash combined ;;
      if (dup : bool) then print (AlreadyRegistered combined)
      else
        block <- add_block (mint_data combined fhash student course year) ;;
        print (Minted (index block) combined)
  end.

(** One turn of the loop that derives the owner (in [transfer_flow], and
    again word for word in [verify_flow]); [h] is an item of the history. *)
Definition owner_step (current_owner : value) (h : value) : result value :=
  match getitem h "data" with
  | Raise e => Raise e
  | Ok d =>
      match Py.get d "type" VNone with
      | Raise e => Raise e
      | Ok ty =>
          if eq_str ty "MINT" then Py.get d "owner" current_owner
          else if eq_str ty "TRANSFER" then Py.get d "to" current_owner
          else Ok current_owner
      end
  end.

Fixpoint owner_loop (current_owner : value) (hist : list value) : result value :=
  match hist with
  | [] => Ok current_owner
  | h :: rest =>
      match owner_step current_owner h with
      | Raise e => Raise e
      | Ok o => owner_loop o rest
      end
  end.

(** [current_owner = None] followed by the loop over [hist]. *)
Definition resolve_owner (hist : list value) : result value := owner_loop VNone hist.

Definition transfer_data (cert_hash : string) (current_owner : value)
    (new_owner : string) : value :=
  VDict [ ("type", VStr "TRANSFER");
          ("cert_hash", VStr cert_hash);
          ("from", current_owner);
          ("to", VStr new_owner) ]%string.

(** The answers to the two prompts are the arguments. *)
Definition transfer_flow (cert_hash new_owner : string) : M unit :=
  hist <- history cert_hash ;;
  match hist with
  | [] => print NoRecord
  | _ :: _ =>
      current_owner <- lift (resolve_owner hist) ;;
      print (CurrentOwner current_owner) ;;
      block <- add_block (transfer_data cert_hash current_owner new_owner) ;;
      print (TransferRecorded (index block))
  end.

(** A run of transfers, each given by its two answers. *)
Fixpoint run_transfers (ops : list (string * string)) : M unit :=
  match ops with
  | [] => ret tt
  | (cert_hash, new_owner) :: rest =>
      transfer_flow cert_hash new_owner ;; run_transfers rest
  end.

(* ===================================================================== *)
(** ** Vocabulary of the properties *)
(* ===================================================================== *)

(** The worlds whose chain was made by [_create_genesis] and then grown by
    [add_block] only. *)
Inductive reachable : World -> Prop :=
| reach_genesis : forall w, reachable (snd (_create_genesis w))
| reach_append : forall w d, reachable w -> reachable (snd (add_block d w)).

Definition is_dict (v : value) : bool :=
  match v with
  | VDict _ => true
  | _ => false
  end.

(** Every payload is a mapping, as the annotation [data: Dict] says. *)
Definition payloads_are_dicts (c : list Block) : bool :=
  forallb (fun b => is_dict (data b)) c.

(** The payload of [b] has the field [cert_hash], with value [fp]. *)
Definition carries_cert_hash (b : Block) (fp : string) : Prop :=
  exists d, data b = VDict d /\ lookup "cert_hash" d = Some (VStr fp).





Definition genesis_block (t : pyfloat) : Block :=
  {| index := VInt 0;
     timestamp := VFloat t;
     prev_hash := VStr (str_mul "0" 64);
     data := genesis_data;
     current_hash := VStr (Sha256.hexdigest (repr genesis_data)) |}.

(** The test [b.data.get("cert_hash") == fp] on a payload that is a dict. *)
Definition has_fp (fp : string) (b : Block) : bool :=
  match data b with
  | VDict d => match lookup "cert_hash" d with
               | Some v => eq_str v fp
               | None => false
               end
  | _ => false
  end.

(** The block [add_block d] builds in [w] when [lb] is the last block: the
    hash takes the next clock reading, the timestamp the one after. *)
Definition new_block (w : World) (lb : Block) (d : value) : Block :=
  {| index := VInt (Z.of_nat (length (chain w)));
     timestamp := VFloat (wall w (S (ticks w)));
     prev_hash := current_hash lb;
     data := d;
     current_hash :=
       VStr (Sha256.hexdigest
               (hash_payload d (current_hash lb) (length (chain w))
                  (wall w (ticks w)))) |}.

(** The world a failed start leaves: a new genesis block, saved, and the
    failure on the console. *)
Definition recovered (w : World) (e : exn) : World :=
  {| chain := [genesis_block (wall w (ticks w))];
     chain_file := Json (serialize_chain [genesis_block (wall w (ticks w))]);
     files := files w; wall := wall w; ticks := S (ticks w);
     console := console w ++ [LoadFailed e] |}.

(** *** Sample worlds *)

Definition sample_clock (n : nat) : pyfloat :=
  PyFloat (repr_int (1700000000 + Z.of_nat n) +++ ".5").

(** A first start: no chain file, one certificate on disk. *)
Definition sample_world : World :=
  {| chain := [];
     chain_file := NoFile;
     files := fun p => if String.eqb p "ana.pdf" then Some "certificate of Ana"%string
                       else None;
     wall := sample_clock;
     ticks := 0;
     console := [] |}.

(** The same world with another clock. *)
Definition with_clock (f : nat -> pyfloat) (w : World) : World :=
  {| chain := chain w; chain_file := chain_file w; files := files w;
     wall := f; ticks := ticks w; console := console w |}.

(** The same world with another chain file. *)
Definition with_file (f : file_state) (w : World) : World :=
  {| chain := chain w; chain_file := f; files := files w;
     wall := wall w; ticks := ticks w; console := console w |}.

(** [sample_world] after [__init__]: the genesis block alone. *)
Definition started_world : World := snd (__init__ sample_world).



(** The genesis block of [sample_world] followed by one appended block. *)
Definition appended_world : World :=
  snd (add_block (transfer_data "ab" VNone "org") (snd (_create_genesis sample_world))).

(** Three items of a history: a mint for Ana, then two transfers. *)
Definition item_mint : value :=
  asdict {| index := VInt 1; timestamp := VFloat (sample_clock 2);
            prev_hash := VStr "00";
            data := mint_data "fp" "fh" "Ana" "CS101" "2025";
            current_hash := VStr "01" |}.

Definition item_transfer (i : Z) (old new : string) : value :=
  asdict {| index := VInt i; timestamp := VFloat (sample_clock (Z.to_nat (2 * i)));
            prev_hash := VStr "01";
            data := transfer_data "fp" (VStr old) new;
            current_hash := VStr "02" |}.

(** *** Vocabulary of the further properties *)

(** The world [__init__] leaves when there is no chain file. *)
Definition fresh (w : World) : World :=
  {| chain := [genesis_block (wall w (ticks w))];
     chain_file := Json (serialize_chain [genesis_block (wall w (ticks w))]);
     files := files w; wall := wall w; ticks := S (ticks w);
     console := console w |}.

(** The same world after one more message. *)
Definition told (e : event) (w : World) : World :=
  {| chain := chain w; chain_file := chain_file w; files := files w;
     wall := wall w; ticks := ticks w; console := console w ++ [e] |}.

(** The linkage of a chain: the sentinel in block 0, each [prev_hash] the
    hash of the block before, each [index] the position. *)
Definition linked (c : list Block) : Prop :=
  (exists b0, nth_error c 0 = Some b0 /\ prev_hash b0 = VStr (str_mul "0" 64))
  /\ (forall i p b,
        nth_error c i = Some p -> nth_error c (S i) = Some b ->
        prev_hash b = current_hash p)
  /\ (forall i b, nth_error c i = Some b -> index b = VInt (Z.of_nat i)).

(** A [str] of 64 characters. *)
Definition hash64 (v : value) : Prop :=
  exists s, v = VStr s /\ String.length s = 64%nat.

(** Transfers of [fp] that hand the certificate on from [cur]: each has
    the owner before it as [from]. *)
Fixpoint handed_over (fp : string) (cur : value) (ts : list Block) : Prop :=
  match ts with
  | [] => True
  | t :: rest =>
      exists new_owner,
        data t = transfer_data fp cur new_owner
        /\ handed_over fp (VStr new_owner) rest
  end.

(** The blocks about one fingerprint: none, or one MINT and then
    transfers that hand it on from the student. *)
Definition provenance (fp : string) (bs : list Block) : Prop :=
  bs = []
  \/ exists m ts fhash student course year,
       bs = m :: ts
       /\ data m = mint_data fp fhash student course year
       /\ handed_over fp (VStr student) ts.

(** The worlds a user can get to: a start without a usable chain file,
    then mints, transfers, and restarts on the file left behind. *)
Inductive flow_reachable : World -> Prop :=
| flow_start : forall w,
    chain_file w = NoFile \/ chain_file w = Unreadable ->
    flow_reachable (snd (__init__ w))
| flow_restart : forall w w2,
    flow_reachable w -> chain_file w2 = chain_file w ->
    flow_reachable (snd (__init__ w2))
| flow_mint : forall w student course year file_path,
    flow_reachable w ->
    flow_reachable (snd (mint_flow student course year file_path w))
| flow_transfer : forall w cert_hash new_owner,
    flow_reachable w ->
    flow_reachable (snd (transfer_flow cert_hash new_owner w)).

(** A small chain written out in full: a genesis block and the mint of
    the fingerprint ["fp"] for Ana. *)
Definition tiny_chain : list Block :=
  [ {| index := VInt 0; timestamp := VFloat (sample_clock 0);
       prev_hash := VStr (str_mul "0" 64); data := genesis_data;
       current_hash := VStr "aa" |};
    {| index := VInt 1; timestamp := VFloat (sample_clock 2);
       prev_hash := VStr "aa"; data := mint_data "fp" "fh" "Ana" "CS101" "2025";
       current_hash := VStr "bb" |} ].

Definition tiny_world : World :=
  {| chain := tiny_chain;
     chain_file := Json (serialize_chain tiny_chain);
     files := files sample_world;
     wall := sample_clock;
     ticks := 3;
     console := [] |}.

(** A block whose payload is a string, as a hand-written file can hold. *)
Definition odd_block : Block :=
  {| index := VInt 2; timestamp := VFloat (sample_clock 4);
     prev_hash := VStr "bb"; data := VStr "MINT"; current_hash := VStr "cc" |}.

(** What every chain made by the flows satisfies. *)
Definition sound_chain (c : list Block) : Prop :=
  payloads_are_dicts c = true
  /\ c <> []
  /\ linked c
  /\ (forall fp, provenance fp (filter (has_fp fp) c))
  /\ Forall (fun b => hash64 (prev_hash b) /\ hash64 (current_hash b)) c.

Definition flow_inv (w : World) : Prop :=
  sound_chain (chain w) /\ chain_file w = Json (serialize_chain (chain w)).

(** [sample_world] started, then the certificate of Ana minted. *)
Definition minted_world : World :=
  snd (mint_flow "Ana" "CS101" "2025" "ana.pdf" (snd (__init__ sample_world))).

(** *** Writes that fail

    [open(CHAIN_FILE, "w")] raises [OSError] when the path cannot be
    written (a directory, no permission, a full disk) and then leaves the
    file as it was.  [_save] above is the case where it succeeds; here the
    methods and the flows are given with the outcome of each write as an
    argument, [can_write]. *)
Definition _save_io (can_write : bool) : M unit :=
  if can_write then _save else raise OSError.

Definition _create_genesis_io (can_write : bool) : M unit :=
  let h := Sha256.hexdigest (repr genesis_data) in
  t <- time ;;
  set_chain [ Build_Block (VInt 0) (VFloat t) (VStr (str_mul "0" 64)) genesis_data (VStr h) ] ;;
  _save_io can_write.

Definition __init___io (can_write : bool) : M unit :=
  set_chain [] ;;
  present <- path_exists ;;
  if (present : bool) then
    try_except _load (fun e => print (LoadFailed e) ;; _create_genesis_io can_write)
  else _create_genesis_io can_write.

Definition add_block_io (can_write : bool) (d : value) : M Block :=
  lb <- last_block ;;
  let prev := current_hash lb in
  h <- compute_hash d prev ;;
  c <- get_chain ;;
  t <- time ;;
  let block := Build_Block (VInt (Z.of_nat (length c))) (VFloat t) prev d (VStr h) in
  set_chain (c ++ [block]) ;;
  _save_io can_write ;;
  ret block.

Definition mint_flow_io (can_write : bool)
    (student course year file_path : string) : M unit :=
  got <- try_except (fhash <- file_sha256 file_path ;; ret (Some fhash))
                    (fun e => print (MintError e) ;; ret None) ;;
  match got with
  | None => ret tt
  | Some fhash =>
      let combined := cert_fingerprint fhash student course year in
      dup <- has_cert_hash combined ;;
      if (dup : bool) then print (AlreadyRegistered combined)
      else
        block <- add_block_io can_write
                   (mint_data combined fhash student course year) ;;
        print (Minted (index block) combined)
  end.

Definition transfer_flow_io (can_write : bool) (cert_hash new_owner : string) : M unit :=
  hist <- history cert_hash ;;
  match hist with
  | [] => print NoRecord
  | _ :: _ =>
      current_owner <- lift (resolve_owner hist) ;;
      print (CurrentOwner current_owner) ;;
      block <- add_block_io can_write
                 (transfer_data cert_hash current_owner new_owner) ;;
      print (TransferRecorded (index block))
  end.


Arguments Sha256.hexdigest : simpl never.
Arguments repr : simpl never.
Arguments str_mul : simpl never.

(* ===================================================================== *)
(** ** The digest agrees with the published test vectors *)
(* ===================================================================== *)

Example sha256_empty :
  Sha256.hexdigest EmptyString
  = "e3b0c44298fc1c149afbf4c8996fb92427ae41e4649b934ca495991b7852b855"%string.
Proof. vm_compute. reflexivity. Qed.

Example sha256_abc :
  Sha256.hexdigest "abc"
  = "ba7816bf8f01cfea414140de5dae2223b00361a396177a9cb410ff61f20015ad"%string.
Proof. vm_compute. reflexivity. Qed.

Example sha256_two_blocks :
  Sha256.hexdigest "abcdbcdecdefdefgefghfghighijhijkijkljklmklmnlmnomnopnopq"
  = "248d6a61d20638b8e5c026930c3e6039a33ce45964ff2167f6ecedd419db06c1"%string.
Proof. vm_compute. reflexivity. Qed.

Example repr_genesis_data :
  repr genesis_data
  = "{'type': 'GENESIS', 'note': 'Decentralized Certificate Registry'}"%string.
Proof. vm_compute. reflexivity. Qed.

Example sentinel_is_64_zeros :
  str_mul "0" 64
  = "0000000000000000000000000000000000000000000000000000000000000000"%string.
Proof. vm_compute. reflexivity. Qed.

(* ===================================================================== *)
(** ** The methods, as equations on worlds *)
(* ===================================================================== *)

Ltac run_eff :=
  cbv [bind ret raise lift try_except get_chain set_chain write_chain_file
       print time serialize _save json_load path_exists last_block
       compute_hash has_cert_hash history file_sha256];
  cbn [chain chain_file files wall ticks console fst snd].


Lemma last_opt_nonempty (c : list Block) : c <> [] -> exists lb, last_opt c = Some lb.
Proof.
  induction c as [|x c IH]; [congruence|]. intros _.
  destruct c as [|y c]; [exists x; reflexivity|].
  destruct IH as [lb Hlb]; [discriminate|]. exists lb. exact Hlb.
Qed.

Lemma last_opt_in (c : list Block) (lb : Block) : last_opt c = Some lb -> In lb c.
Proof.
  induction c as [|x c IH]; [discriminate|].
  destruct c as [|y c]; cbn [last_opt].
  - intros [= ->]. left. reflexivity.
  - intros H. right. apply IH. exact H.
Qed.

Lemma _create_genesis_eq (w : World) :
  _create_genesis w
  = (Ok tt,
     {| chain := [genesis_block (wall w (ticks w))];
        chain_file := Json (serialize_chain [genesis_block (wall w (ticks w))]);
        files := files w; wall := wall w; ticks := S (ticks w);
        console := console w |}).
Proof. reflexivity. Qed.

Lemma add_block_eq (w : World) (d : value) (lb : Block) :
  last_opt (chain w) = Some lb ->
  add_block d w
  = (Ok (new_block w lb d),
     {| chain := chain w ++ [new_block w lb d];
        chain_file := Json (serialize_chain (chain w ++ [new_block w lb d]));
        files := files w; wall := wall w; ticks := S (S (ticks w));
        console := console w |}).
Proof.
  intros H. unfold add_block. run_eff. rewrite H. reflexivity.
Qed.

Lemma add_block_empty (w : World) (d : value) :
  chain w = [] -> add_block d w = (Raise IndexError, w).
Proof.
  intros H. unfold add_block. run_eff. rewrite H. reflexivity.
Qed.

Lemma last_opt_nth (c : list Block) (lb : Block) :
  last_opt c = Some lb -> nth_error c (length c - 1) = Some lb.
Proof.
  induction c as [|x c IH]; [discriminate|].
  destruct c as [|y c]; cbn [last_opt].
  - intros [= ->]. reflexivity.
  - intros H. specialize (IH H). cbn [length] in *.
    replace (S (S (length c)) - 1)%nat with (S (S (length c) - 1)) by lia.
    exact IH.
Qed.

Lemma nth_error_snoc (c : list Block) (x b : Block) (i : nat) :
  nth_error (c ++ [x]) i = Some b ->
  (i < length c)%nat /\ nth_error c i = Some b \/ i = length c /\ b = x.
Proof.
  intros H. destruct (Nat.lt_ge_cases i (length c)) as [Hlt|Hge].
  - left. split; [exact Hlt|]. rewrite nth_error_app1 in H by exact Hlt. exact H.
  - right. rewrite nth_error_app2 in H by exact Hge.
    destruct (i - length c)%nat as [|k] eqn:E; cbn in H.
    + split; [lia | congruence].
    + destruct k; discriminate.
Qed.

(* ===================================================================== *)
(** ** Linkage of the chain *)
(* ===================================================================== *)

(** C1.  In every world reached from the creation of the genesis block by
    calls of [add_block], the chain is not empty, block 0 has the 64 zeros
    as [prev_hash], each later block has the [current_hash] of the block
    before it as [prev_hash], and the [index] of a block is its position. *)
Theorem chain_invariants (w : World) :
  reachable w ->
  chain w <> []
  /\ (exists b0, nth_error (chain w) 0 = Some b0
                 /\ prev_hash b0 = VStr (str_mul "0" 64))
  /\ (forall i p b,
        nth_error (chain w) i = Some p ->
        nth_error (chain w) (S i) = Some b ->
        prev_hash b = current_hash p)
  /\ (forall i b, nth_error (chain w) i = Some b -> index b = VInt (Z.of_nat i)).
Proof.
  induction 1 as [w|w d Hr (Hne & (b0 & Hb0 & Hs) & Hlink & Hidx)].
  - rewrite _create_genesis_eq. cbn [snd chain].
    split; [discriminate|]. split; [|split].
    + eexists. split; reflexivity.
    + intros [|i] p b _ Hb; [discriminate Hb | destruct i; discriminate Hb].
    + intros [|i] b Hb; [|destruct i; discriminate Hb].
      injection Hb as <-. reflexivity.
  - destruct (last_opt_nonempty _ Hne) as [lb Hlb].
    rewrite (add_block_eq _ _ _ Hlb). cbn [snd chain].
    pose proof (last_opt_nth _ _ Hlb) as Hlast.
    assert (Hlen : (0 < length (chain w))%nat)
      by (destruct (chain w); [congruence | cbn; lia]).
    split; [intros E; apply app_eq_nil in E; destruct E; discriminate|].
    split; [|split].
    + exists b0. split; [|exact Hs].
      rewrite nth_error_app1 by exact Hlen. exact Hb0.
    + intros i p b Hp Hb.
      destruct (nth_error_snoc _ _ _ _ Hb) as [[Hlt Hb']|[Hi ->]].
      * apply (Hlink i); [|exact Hb'].
        rewrite nth_error_app1 in Hp by lia. exact Hp.
      * rewrite nth_error_app1 in Hp by lia.
        replace i with (length (chain w) - 1)%nat in Hp by lia.
        rewrite Hlast in Hp. injection Hp as <-. reflexivity.
    + intros i b Hb.
      destruct (nth_error_snoc _ _ _ _ Hb) as [[Hlt Hb']|[-> ->]].
      * apply Hidx. exact Hb'.
      * reflexivity.
Qed.

(* ===================================================================== *)
(** ** Appending *)
(* ===================================================================== *)



(* ===================================================================== *)
(** ** Deriving the owner *)
(* ===================================================================== *)

Section OwnerLoop.

Variables (h : value) (m : list (string * value)).
Hypothesis Hdata : getitem h "data" = Ok (VDict m).

Lemma owner_step_mint (cur a : value) :
  lookup "type" m = Some (VStr "MINT") ->
  lookup "owner" m = Some a ->
  owner_step cur h = Ok a.
Proof.
  intros Hty Ho. unfold owner_step. rewrite Hdata. cbn [Py.get].
  rewrite Hty, Ho. reflexivity.
Qed.

Lemma owner_step_transfer (cur b : value) :
  lookup "type" m = Some (VStr "TRANSFER") ->
  lookup "to" m = Some b ->
  owner_step cur h = Ok b.
Proof.
  intros Hty Ho. unfold owner_step. rewrite Hdata. cbn [Py.get].
  rewrite Hty, Ho. reflexivity.
Qed.

End OwnerLoop.

Lemma owner_loop_app (cur : value) (h1 h2 : list value) :
  owner_loop cur (h1 ++ h2)
  = match owner_loop cur h1 with
    | Ok o => owner_loop o h2
    | Raise e => Raise e
    end.
Proof.
  revert cur. induction h1 as [|x h1 IH]; intros cur; [reflexivity|].
  cbn [app owner_loop]. destruct (owner_step cur x); [apply IH | reflexivity].
Qed.

(** C3.  With [hm] a Mint item whose [owner] is [a], and [ht1], [ht2]
    Transfer items whose [to] are [b] and [c], the owner derived from
    [[hm]] is [a], from [[hm; ht1]] is [b], from [[hm; ht1; ht2]] is [c];
    from the empty history the loop ends normally with [None]. *)
Theorem resolve_owner_examples
    (hm ht1 ht2 : value) (m t1 t2 : list (string * value)) (a b c : value) :
  getitem hm "data" = Ok (VDict m) ->
  lookup "type" m = Some (VStr "MINT") ->
  lookup "owner" m = Some a ->
  getitem ht1 "data" = Ok (VDict t1) ->
  lookup "type" t1 = Some (VStr "TRANSFER") ->
  lookup "to" t1 = Some b ->
  getitem ht2 "data" = Ok (VDict t2) ->
  lookup "type" t2 = Some (VStr "TRANSFER") ->
  lookup "to" t2 = Some c ->
  resolve_owner [hm] = Ok a
  /\ resolve_owner [hm; ht1] = Ok b
  /\ resolve_owner [hm; ht1; ht2] = Ok c
  /\ resolve_owner [] = Ok VNone.
Proof.
  intros Hm Hmt Hmo H1 H1t H1o H2 H2t H2o.
  unfold resolve_owner. cbn [owner_loop].
  rewrite (owner_step_mint _ _ Hm VNone a Hmt Hmo).
  rewrite (owner_step_transfer _ _ H1 a b H1t H1o).
  rewrite (owner_step_transfer _ _ H2 b c H2t H2o).
  repeat split.
Qed.

(* ===================================================================== *)
(** ** Looking a fingerprint up *)
(* ===================================================================== *)

Lemma has_fp_carries (b : Block) (fp : string) :
  has_fp fp b = true <-> carries_cert_hash b fp.
Proof.
  unfold has_fp, carries_cert_hash. split.
  - destruct (data b) as [| | | | |l|d]; try discriminate.
    destruct (lookup "cert_hash" d) as [v|] eqn:E; [|discriminate].
    destruct v; try discriminate. cbn [eq_str]. intros H.
    apply String.eqb_eq in H. subst. exists d. split; [reflexivity | exact E].
  - intros (d & Hd & Hl). rewrite Hd, Hl. cbn [eq_str]. apply String.eqb_refl.
Qed.

Lemma get_cert_hash_dict (b : Block) (fp : string) :
  is_dict (data b) = true ->
  exists v, Py.get (data b) "cert_hash" VNone = Ok v /\ eq_str v fp = has_fp fp b.
Proof.
  unfold has_fp. destruct (data b) as [| | | | |l|d]; try discriminate. intros _.
  cbn [Py.get]. destruct (lookup "cert_hash" d) as [v|]; eexists; split; reflexivity.
Qed.

Lemma any_cert_hash_dicts (c : list Block) (fp : string) :
  payloads_are_dicts c = true ->
  any_cert_hash c fp = Ok (existsb (has_fp fp) c).
Proof.
  induction c as [|b c IH]; [reflexivity|]. cbn [payloads_are_dicts forallb].
  intros H. apply andb_true_iff in H. destruct H as [Hb Hc].
  destruct (get_cert_hash_dict b fp Hb) as (v & Hv & Hfp).
  cbn [any_cert_hash existsb]. rewrite Hv, Hfp.
  destruct (has_fp fp b); [reflexivity | apply IH; exact Hc].
Qed.

Lemma history_of_dicts (c : list Block) (fp : string) :
  payloads_are_dicts c = true ->
  history_of c fp = Ok (map asdict (filter (has_fp fp) c)).
Proof.
  induction c as [|b c IH]; [reflexivity|]. cbn [payloads_are_dicts forallb].
  intros H. apply andb_true_iff in H. destruct H as [Hb Hc].
  destruct (get_cert_hash_dict b fp Hb) as (v & Hv & Hfp).
  cbn [history_of filter]. rewrite Hv, Hfp, (IH Hc).
  destruct (has_fp fp b); reflexivity.
Qed.

(** Once found, a fingerprint stays found whatever is appended. *)
Lemma any_cert_hash_app (c c' : list Block) (fp : string) :
  any_cert_hash c fp = Ok true -> any_cert_hash (c ++ c') fp = Ok true.
Proof.
  induction c as [|b c IH]; [discriminate|]. cbn [app any_cert_hash].
  destruct (Py.get (data b) "cert_hash" VNone) as [v|e]; [|discriminate].
  destruct (eq_str v fp); [reflexivity | exact IH].
Qed.

Lemma payloads_are_dicts_snoc (c : list Block) (b : Block) :
  payloads_are_dicts c = true -> is_dict (data b) = true ->
  payloads_are_dicts (c ++ [b]) = true.
Proof.
  intros Hc Hb. unfold payloads_are_dicts in *. rewrite forallb_app, Hc.
  cbn [forallb]. rewrite Hb. reflexivity.
Qed.

Lemma filter_nonempty (f : Block -> bool) (c : list Block) :
  filter f c <> [] -> c <> [].
Proof. destruct c; [intros H; exact H | discriminate]. Qed.

Lemma owner_loop_dicts (bs : list Block) (cur : value) :
  payloads_are_dicts bs = true ->
  exists o, owner_loop cur (map asdict bs) = Ok o.
Proof.
  revert cur. induction bs as [|b bs IH]; intros cur; [exists cur; reflexivity|].
  cbn [payloads_are_dicts forallb]. intros H.
  apply andb_true_iff in H. destruct H as [Hb Hc].
  cbn [map owner_loop]. unfold owner_step, asdict. cbn [getitem lookup String.eqb Ascii.eqb Bool.eqb].
  destruct (data b) as [| | | | |l|d]; try discriminate. cbn [Py.get].
  destruct (eq_str _ "MINT"); [apply IH; exact Hc|].
  destruct (eq_str _ "TRANSFER"); apply IH; exact Hc.
Qed.

Lemma payloads_are_dicts_filter (f : Block -> bool) (c : list Block) :
  payloads_are_dicts c = true -> payloads_are_dicts (filter f c) = true.
Proof.
  induction c as [|b c IH]; [reflexivity|]. cbn [payloads_are_dicts forallb filter].
  intros H. apply andb_true_iff in H. destruct H as [Hb Hc].
  destruct (f b); [|apply IH; exact Hc].
  cbn [forallb]. rewrite Hb. apply IH. exact Hc.
Qed.

(* ===================================================================== *)
(** ** The flows, as equations on worlds *)
(* ===================================================================== *)

Ltac run_flow :=
  cbv [mint_flow transfer_flow add_block
       bind ret raise lift try_except get_chain set_chain write_chain_file
       print time serialize _save json_load path_exists last_block
       compute_hash has_cert_hash history file_sha256];
  cbn [chain chain_file files wall ticks console fst snd].

Lemma transfer_flow_unknown (w : World) (cert_hash new_owner : string) :
  history_of (chain w) cert_hash = Ok [] ->
  transfer_flow cert_hash new_owner w
  = (Ok tt,
     {| chain := chain w; chain_file := chain_file w; files := files w;
        wall := wall w; ticks := ticks w;
        console := console w ++ [NoRecord] |}).
Proof. intros H. run_flow. rewrite H. reflexivity. Qed.

Lemma transfer_flow_known (w : World) (cert_hash new_owner : string)
    (h : value) (hs : list value) (owner : value) (lb : Block) :
  history_of (chain w) cert_hash = Ok (h :: hs) ->
  resolve_owner (h :: hs) = Ok owner ->
  last_opt (chain w) = Some lb ->
  let blk := new_block w lb (transfer_data cert_hash owner new_owner) in
  transfer_flow cert_hash new_owner w
  = (Ok tt,
     {| chain := chain w ++ [blk];
        chain_file := Json (serialize_chain (chain w ++ [blk]));
        files := files w; wall := wall w; ticks := S (S (ticks w));
        console := (console w ++ [CurrentOwner owner])
                   ++ [TransferRecorded (index blk)] |}).
Proof.
  intros H Ho Hlb blk. run_flow. rewrite H, Ho. run_flow. rewrite Hlb. reflexivity.
Qed.

Lemma mint_flow_no_file (w : World) (student course year file_path : string) :
  files w file_path = None ->
  mint_flow student course year file_path w
  = (Ok tt,
     {| chain := chain w; chain_file := chain_file w; files := files w;
        wall := wall w; ticks := ticks w;
        console := console w ++ [MintError FileNotFoundError] |}).
Proof. intros H. run_flow. rewrite H. reflexivity. Qed.

Lemma mint_flow_duplicate (w : World) (student course year file_path content : string) :
  files w file_path = Some content ->
  let fp := cert_fingerprint (Sha256.hexdigest content) student course year in
  any_cert_hash (chain w) fp = Ok true ->
  mint_flow student course year file_path w
  = (Ok tt,
     {| chain := chain w; chain_file := chain_file w; files := files w;
        wall := wall w; ticks := ticks w;
        console := console w ++ [AlreadyRegistered fp] |}).
Proof. intros H fp Hd. run_flow. rewrite H. run_flow. fold fp. rewrite Hd. reflexivity. Qed.

Lemma mint_flow_fresh (w : World) (student course year file_path content : string)
    (lb : Block) :
  files w file_path = Some content ->
  let fhash := Sha256.hexdigest content in
  let fp := cert_fingerprint fhash student course year in
  any_cert_hash (chain w) fp = Ok false ->
  last_opt (chain w) = Some lb ->
  let blk := new_block w lb (mint_data fp fhash student course year) in
  mint_flow student course year file_path w
  = (Ok tt,
     {| chain := chain w ++ [blk];
        chain_file := Json (serialize_chain (chain w ++ [blk]));
        files := files w; wall := wall w; ticks := S (S (ticks w));
        console := console w ++ [Minted (index blk) fp] |}).
Proof.
  intros H fhash fp Hd Hlb blk. run_flow. rewrite H. run_flow.
  fold fhash. fold fp. rewrite Hd. run_flow. rewrite Hlb. reflexivity.
Qed.

Lemma snoc_neq (c : list Block) (b : Block) : c ++ [b] <> c.
Proof.
  intros E. apply (f_equal (@length Block)) in E.
  rewrite length_app in E. cbn in E. lia.
Qed.

(* ===================================================================== *)
(** ** Transfer *)
(* ===================================================================== *)

(** C7.  On a chain whose payloads are mappings, [transfer_flow] ends
    normally, and either the history of [cert_hash] is empty, and then
    chain and file are as before and the user is told there is no record,
    or the history is not empty, and then the chain is the old one plus
    one block whose payload is a TRANSFER of [cert_hash] with [from] the
    owner derived from that history and [to] the new owner given.  Nothing
    but the history decides between the two: the flow takes no requester. *)
Theorem transfer_flow_spec (w : World) (cert_hash new_owner : string) :
  payloads_are_dicts (chain w) = true ->
  exists hist w',
    history cert_hash w = (Ok hist, w)
    /\ transfer_flow cert_hash new_owner w = (Ok tt, w')
    /\ (hist = []
        /\ chain w' = chain w
        /\ chain_file w' = chain_file w
        /\ console w' = console w ++ [NoRecord]
        \/
        hist <> []
        /\ chain w' <> chain w
        /\ exists owner blk,
             resolve_owner hist = Ok owner
             /\ chain w' = chain w ++ [blk]
             /\ data blk = transfer_data cert_hash owner new_owner
             /\ Py.get (data blk) "type" VNone = Ok (VStr "TRANSFER")
             /\ Py.get (data blk) "cert_hash" VNone = Ok (VStr cert_hash)
             /\ Py.get (data blk) "from" VNone = Ok owner
             /\ Py.get (data blk) "to" VNone = Ok (VStr new_owner)
             /\ chain_file w' = Json (serialize_chain (chain w'))).
Proof.
  intros Hd. pose proof (history_of_dicts _ cert_hash Hd) as Hh.
  exists (map asdict (filter (has_fp cert_hash) (chain w))).
  destruct (filter (has_fp cert_hash) (chain w)) as [|b bs] eqn:Ef.
  - eexists. split; [unfold history; run_eff; rewrite Hh; reflexivity|].
    split; [apply transfer_flow_unknown; exact Hh|].
    left. cbn [chain chain_file console map]. repeat split.
  - assert (Hne : chain w <> []) by (apply (filter_nonempty (has_fp cert_hash)); congruence).
    destruct (last_opt_nonempty _ Hne) as [lb Hlb].
    destruct (owner_loop_dicts (b :: bs) VNone) as [owner Ho].
    { rewrite <- Ef. apply payloads_are_dicts_filter. exact Hd. }
    eexists. split; [unfold history; run_eff; rewrite Hh; reflexivity|].
    split; [exact (transfer_flow_known w cert_hash new_owner _ _ owner lb Hh Ho Hlb)|].
    right. cbn [chain chain_file console].
    split; [discriminate|]. split; [apply snoc_neq|].
    exists owner. eexists. split; [exact Ho|]. split; [reflexivity|].
    repeat split.
Qed.

(** What a transfer does to the chain, whatever the certificate. *)
Lemma transfer_flow_grows (w : World) (cert_hash new_owner : string) :
  payloads_are_dicts (chain w) = true ->
  exists w',
    transfer_flow cert_hash new_owner w = (Ok tt, w')
    /\ payloads_are_dicts (chain w') = true
    /\ exists tail, chain w' = chain w ++ tail.
Proof.
  intros Hd. pose proof (history_of_dicts _ cert_hash Hd) as Hh.
  destruct (filter (has_fp cert_hash) (chain w)) as [|b bs] eqn:Ef.
  - eexists. split; [apply transfer_flow_unknown; exact Hh|].
    cbn [chain]. split; [exact Hd|]. exists []. symmetry. apply app_nil_r.
  - assert (Hne : chain w <> []) by (apply (filter_nonempty (has_fp cert_hash)); congruence).
    destruct (last_opt_nonempty _ Hne) as [lb Hlb].
    destruct (owner_loop_dicts (b :: bs) VNone) as [owner Ho].
    { rewrite <- Ef. apply payloads_are_dicts_filter. exact Hd. }
    eexists.
    split; [exact (transfer_flow_known w cert_hash new_owner _ _ owner lb Hh Ho Hlb)|].
    cbn [chain]. split; [apply payloads_are_dicts_snoc; [exact Hd | reflexivity]|].
    eexists. reflexivity.
Qed.

Lemma run_transfers_keep (ops : list (string * string)) (w : World) (fp : string) :
  payloads_are_dicts (chain w) = true ->
  any_cert_hash (chain w) fp = Ok true ->
  exists w',
    run_transfers ops w = (Ok tt, w')
    /\ payloads_are_dicts (chain w') = true
    /\ any_cert_hash (chain w') fp = Ok true.
Proof.
  revert w. induction ops as [|[c o] ops IH]; intros w Hd Hfp.
  - exists w. repeat split; assumption.
  - destruct (transfer_flow_grows w c o Hd) as (w1 & Ht & Hd1 & tail & Hc).
    destruct (IH w1 Hd1) as (w' & Hr & Hd' & Hfp').
    { rewrite Hc. apply any_cert_hash_app. exact Hfp. }
    exists w'. split; [|split; assumption].
    cbn [run_transfers]. unfold bind. rewrite Ht. exact Hr.
Qed.

(** After [mint_flow] has read the file, its fingerprint is on the chain:
    it was there already, or the flow has appended the MINT block. *)
Lemma mint_flow_registers (w : World) (student course year file_path content : string) :
  payloads_are_dicts (chain w) = true ->
  chain w <> [] ->
  files w file_path = Some content ->
  let fhash := Sha256.hexdigest content in
  let fp := cert_fingerprint fhash student course year in
  exists w1,
    mint_flow student course year file_path w = (Ok tt, w1)
    /\ payloads_are_dicts (chain w1) = true
    /\ chain w1 <> []
    /\ files w1 = files w
    /\ any_cert_hash (chain w1) fp = Ok true
    /\ (any_cert_hash (chain w) fp = Ok true /\ chain w1 = chain w
        \/
        any_cert_hash (chain w) fp = Ok false
        /\ exists blk, chain w1 = chain w ++ [blk]
                       /\ data blk = mint_data fp fhash student course year).
Proof.
  intros Hd Hne Hf fhash fp.
  pose proof (any_cert_hash_dicts _ fp Hd) as Ha.
  destruct (existsb (has_fp fp) (chain w)) eqn:Ex.
  - eexists. split; [exact (mint_flow_duplicate w student course year _ _ Hf Ha)|].
    cbn [chain files]. repeat split; try assumption. left. split; [exact Ha | reflexivity].
  - destruct (last_opt_nonempty _ Hne) as [lb Hlb].
    eexists. split; [exact (mint_flow_fresh w student course year _ _ lb Hf Ha Hlb)|].
    cbn [chain files]. fold fhash. fold fp.
    assert (Hd1 : payloads_are_dicts
                    (chain w ++ [new_block w lb (mint_data fp fhash student course year)])
                  = true)
      by (apply payloads_are_dicts_snoc; [exact Hd | reflexivity]).
    split; [exact Hd1|].
    split; [intros E; apply app_eq_nil in E; destruct E; discriminate|].
    split; [reflexivity|].
    split.
    + rewrite (any_cert_hash_dicts _ fp Hd1), existsb_app. cbn [existsb].
      unfold has_fp at 2. cbn [new_block data mint_data lookup String.eqb Ascii.eqb Bool.eqb eq_str].
      rewrite String.eqb_refl. rewrite orb_true_r. reflexivity.
    + right. split; [exact Ha|]. eexists. split; reflexivity.
Qed.

(* ===================================================================== *)
(** ** Fingerprints *)
(* ===================================================================== *)

(** C6.  On a chain whose payloads are mappings [has_cert_hash fp] returns
    a boolean, which is true exactly when some block's payload carries
    [cert_hash = fp].  It is true of the fingerprint of a certificate
    right after [mint_flow] has registered it, and is still true after any
    run of transfers that follows. *)
Theorem has_cert_hash_spec (w : World) (fp : string)
    (student course year file_path content : string) (ops : list (string * string)) :
  payloads_are_dicts (chain w) = true ->
  chain w <> [] ->
  files w file_path = Some content ->
  (exists r,
      has_cert_hash fp w = (Ok r, w)
      /\ (r = true <-> exists b, In b (chain w) /\ carries_cert_hash b fp))
  /\ (exists w1 w2,
        let minted := cert_fingerprint (Sha256.hexdigest content) student course year in
        mint_flow student course year file_path w = (Ok tt, w1)
        /\ has_cert_hash minted w1 = (Ok true, w1)
        /\ run_transfers ops w1 = (Ok tt, w2)
        /\ has_cert_hash minted w2 = (Ok true, w2)).
Proof.
  intros Hd Hne Hf. split.
  - exists (existsb (has_fp fp) (chain w)). split.
    + unfold has_cert_hash. run_eff. rewrite (any_cert_hash_dicts _ fp Hd). reflexivity.
    + rewrite existsb_exists. split.
      * intros (b & Hin & Hb). exists b. split; [exact Hin | apply has_fp_carries; exact Hb].
      * intros (b & Hin & Hb). exists b. split; [exact Hin | apply has_fp_carries; exact Hb].
  - destruct (mint_flow_registers w student course year file_path content Hd Hne Hf)
      as (w1 & Hm & Hd1 & _ & _ & Hfp1 & _).
    destruct (run_transfers_keep ops w1 _ Hd1 Hfp1) as (w2 & Hr & _ & Hfp2).
    exists w1, w2. cbv zeta.
    split; [exact Hm|].
    split; [unfold has_cert_hash; run_eff; rewrite Hfp1; reflexivity|].
    split; [exact Hr|].
    unfold has_cert_hash. run_eff. rewrite Hfp2. reflexivity.
Qed.

(** C5.  The fingerprint is the digest of the file digest, the student,
    the course and the year joined by a bar, so equal inputs give equal
    fingerprints.  When [mint_flow] is run twice with the same student,
    course and year on files of equal digest, the fingerprint is on the
    chain after the first run, and the second run finds it with
    [has_cert_hash], reports the duplicate and leaves chain and file as the
    first run left them. *)
Theorem mint_twice_is_duplicate (w : World)
    (student course year path1 content1 path2 content2 : string) :
  payloads_are_dicts (chain w) = true ->
  chain w <> [] ->
  files w path1 = Some content1 ->
  files w path2 = Some content2 ->
  Sha256.hexdigest content1 = Sha256.hexdigest content2 ->
  let fhash := Sha256.hexdigest content1 in
  let fp := cert_fingerprint fhash student course year in
  fp = Sha256.hexdigest (fhash +++ "|" +++ student +++ "|" +++ course +++ "|" +++ year)
  /\ cert_fingerprint (Sha256.hexdigest content2) student course year = fp
  /\ exists w1 w2,
       mint_flow student course year path1 w = (Ok tt, w1)
       /\ (chain w1 = chain w
           \/ exists blk, chain w1 = chain w ++ [blk]
                          /\ data blk = mint_data fp fhash student course year)
       /\ has_cert_hash fp w1 = (Ok true, w1)
       /\ mint_flow student course year path2 w1 = (Ok tt, w2)
       /\ chain w2 = chain w1
       /\ chain_file w2 = chain_file w1
       /\ console w2 = console w1 ++ [AlreadyRegistered fp].
Proof.
  intros Hd Hne Hf1 Hf2 Heq fhash fp.
  split; [reflexivity|]. split; [rewrite <- Heq; reflexivity|].
  destruct (mint_flow_registers w student course year path1 content1 Hd Hne Hf1)
    as (w1 & Hm & Hd1 & Hne1 & Hfiles & Hfp1 & Hcase).
  fold fhash in Hfp1, Hcase. fold fp in Hfp1, Hcase.
  assert (Hf2' : files w1 path2 = Some content2) by (rewrite Hfiles; exact Hf2).
  assert (Hfp2 : any_cert_hash (chain w1)
                   (cert_fingerprint (Sha256.hexdigest content2) student course year)
                 = Ok true)
    by (rewrite <- Heq; exact Hfp1).
  pose proof (mint_flow_duplicate w1 student course year path2 content2 Hf2' Hfp2) as Hm2.
  rewrite <- Heq in Hm2. fold fhash in Hm2. fold fp in Hm2.
  eexists w1, _. split; [exact Hm|].
  split.
  { destruct Hcase as [[_ Hc]|[_ Hc]]; [left; exact Hc | right; exact Hc]. }
  split; [unfold has_cert_hash; run_eff; rewrite Hfp1; reflexivity|].
  split; [exact Hm2|].
  cbn [chain chain_file console]. repeat split.
Qed.

(* ===================================================================== *)
(** ** Saving and loading *)
(* ===================================================================== *)

Lemma Block_kwargs_asdict (b : Block) : Block_kwargs (asdict b) = Ok b.
Proof. destruct b. reflexivity. Qed.

Lemma mapM_asdict (c : list Block) : mapM Block_kwargs (map asdict c) = Ok c.
Proof.
  induction c as [|b c IH]; [reflexivity|].
  cbn [map mapM]. rewrite Block_kwargs_asdict, IH. reflexivity.
Qed.






Ltac run_init :=
  cbv [__init__ _load _create_genesis
       bind ret raise lift try_except get_chain set_chain write_chain_file
       print time serialize _save json_load path_exists];
  cbn [chain chain_file files wall ticks console fst snd].

Lemma _save_eq (w : World) :
  _save w
  = (Ok tt,
     {| chain := chain w; chain_file := Json (serialize_chain (chain w));
        files := files w; wall := wall w; ticks := ticks w;
        console := console w |}).
Proof. reflexivity. Qed.

Lemma _load_ok (w : World) (raw : value) (items : list value) (bs : list Block) :
  chain_file w = Json raw ->
  iter raw = Ok items ->
  mapM Block_kwargs items = Ok bs ->
  _load w
  = (Ok tt,
     {| chain := bs; chain_file := chain_file w; files := files w;
        wall := wall w; ticks := ticks w; console := console w |}).
Proof.
  intros Hf Hi Hm. run_init. rewrite Hf. run_init. rewrite Hi. run_init.
  rewrite Hm. run_init. rewrite ?Hf. reflexivity.
Qed.

Lemma __init___loaded (w : World) (raw : value) (items : list value) (bs : list Block) :
  chain_file w = Json raw ->
  iter raw = Ok items ->
  mapM Block_kwargs items = Ok bs ->
  __init__ w
  = (Ok tt,
     {| chain := bs; chain_file := chain_file w; files := files w;
        wall := wall w; ticks := ticks w; console := console w |}).
Proof.
  intros Hf Hi Hm. run_init. rewrite Hf. run_init. rewrite Hi. run_init.
  rewrite Hm. run_init. rewrite ?Hf. reflexivity.
Qed.



(** C9.  Let [w2] be any world whose file is the one [_save] writes for
    the chain of [w].  That file is the serialization of the chain, and
    both [_load] and a whole start [__init__] in [w2] end normally with a
    chain equal to the chain of [w], block for block and so field for
    field ([index], [timestamp], [prev_hash], [data], [current_hash]).  The
    clock is not read and the file is not rewritten: no hash is computed. *)
Theorem serialize_load_roundtrip (w w2 : World) :
  chain_file w2 = chain_file (snd (_save w)) ->
  serialize w = (Ok (serialize_chain (chain w)), w)
  /\ chain_file (snd (_save w)) = Json (serialize_chain (chain w))
  /\ mapM Block_kwargs (map asdict (chain w)) = Ok (chain w)
  /\ (exists w3,
        _load w2 = (Ok tt, w3)
        /\ chain w3 = chain w
        /\ map current_hash (chain w3) = map current_hash (chain w)
        /\ ticks w3 = ticks w2
        /\ chain_file w3 = chain_file w2)
  /\ (exists w4,
        __init__ w2 = (Ok tt, w4)
        /\ chain w4 = chain w
        /\ map current_hash (chain w4) = map current_hash (chain w)
        /\ ticks w4 = ticks w2
        /\ chain_file w4 = chain_file w2
        /\ console w4 = console w2).
Proof.
  rewrite _save_eq. cbn [snd chain_file]. intros Hf.
  split; [reflexivity|]. split; [reflexivity|]. split; [apply mapM_asdict|].
  split.
  - eexists. split.
    + apply (_load_ok w2 _ (map asdict (chain w)) (chain w) Hf);
        [reflexivity | apply mapM_asdict].
    + cbn [chain ticks chain_file]. repeat split.
  - eexists. split.
    + apply (__init___loaded w2 _ (map asdict (chain w)) (chain w) Hf);
        [reflexivity | apply mapM_asdict].
    + cbn [chain ticks chain_file console]. repeat split.
Qed.



(* ===================================================================== *)
(** ** What the hashes are digests of *)
(* ===================================================================== *)

Lemma reachable_hashes (w : World) :
  reachable w ->
  (exists g,
      nth_error (chain w) 0 = Some g
      /\ data g = genesis_data
      /\ current_hash g = VStr (Sha256.hexdigest (repr (data g))))
  /\ (forall i b,
        nth_error (chain w) (S i) = Some b ->
        exists k,
          timestamp b = VFloat (wall w (S k))
          /\ current_hash b
             = VStr (Sha256.hexdigest
                       (hash_payload (data b) (prev_hash b) (S i) (wall w k)))).
Proof.
  induction 1 as [w|w d Hr ((g & Hg & Hgd & Hgh) & Hrest)].
  - rewrite _create_genesis_eq. cbn [snd chain wall]. split.
    + eexists. split; [reflexivity|]. split; reflexivity.
    + intros i b Hb. destruct i; discriminate Hb.
  - assert (Hne : chain w <> []) by (intros E; rewrite E in Hg; discriminate Hg).
    destruct (last_opt_nonempty _ Hne) as [lb Hlb].
    rewrite (add_block_eq _ _ _ Hlb). cbn [snd chain wall]. split.
    + exists g. split; [|split; assumption].
      rewrite nth_error_app1; [exact Hg|].
      destruct (chain w); [congruence | cbn; lia].
    + intros i b Hb.
      destruct (nth_error_snoc _ _ _ _ Hb) as [[Hlt Hb']|[Hi ->]].
      * apply Hrest. exact Hb'.
      * exists (ticks w). split; [reflexivity|].
        cbn [new_block current_hash data prev_hash]. rewrite Hi. reflexivity.
Qed.

(** Each of the four inputs of [compute_hash] changes the digest. *)
Example hash_payload_sensitive :
  let h d p n t := Sha256.hexdigest (hash_payload d p n t) in
  let d := transfer_data "ab" VNone "org" in
  let t := PyFloat "1700000000.5" in
  h d (VStr "00") 1%nat t <> h genesis_data (VStr "00") 1%nat t
  /\ h d (VStr "00") 1%nat t <> h d (VStr "01") 1%nat t
  /\ h d (VStr "00") 1%nat t <> h d (VStr "00") 2%nat t
  /\ h d (VStr "00") 1%nat t <> h d (VStr "00") 1%nat (PyFloat "1700000000.75").
Proof. vm_compute. repeat split; intros H; discriminate H. Qed.

(** C4, as the code has it.  In every world reached from the creation of
    the genesis block by calls of [add_block]: block 0 carries the genesis
    payload and its hash is the digest of the [repr] of that payload and of
    nothing else; the hash of every later block is the digest of the
    [repr] of its payload, its [prev_hash], its position (the length of the
    chain when it was made) and a reading of the clock, joined by bars; that
    reading is the one taken just before the reading kept as [timestamp].
    That digest depends on all four inputs: for each of them there are two
    values that give different digests, the other three being the same. *)
Theorem block_hashes (w : World) :
  reachable w ->
  (exists g,
      nth_error (chain w) 0 = Some g
      /\ data g = genesis_data
      /\ current_hash g = VStr (Sha256.hexdigest (repr (data g))))
  /\ (forall i b,
        nth_error (chain w) (S i) = Some b ->
        exists k,
          timestamp b = VFloat (wall w (S k))
          /\ current_hash b
             = VStr (Sha256.hexdigest
                       (hash_payload (data b) (prev_hash b) (S i) (wall w k))))
  /\ (exists d d' p p' n n' t t',
        Sha256.hexdigest (hash_payload d p n t)
        <> Sha256.hexdigest (hash_payload d' p n t)
        /\ Sha256.hexdigest (hash_payload d p n t)
           <> Sha256.hexdigest (hash_payload d p' n t)
        /\ Sha256.hexdigest (hash_payload d p n t)
           <> Sha256.hexdigest (hash_payload d p n' t)
        /\ Sha256.hexdigest (hash_payload d p n t)
           <> Sha256.hexdigest (hash_payload d p n t')).
Proof.
  intros Hr. destruct (reachable_hashes w Hr) as [Hg Hrest].
  split; [exact Hg|]. split; [exact Hrest|].
  exists (transfer_data "ab" VNone "org"), genesis_data, (VStr "00"), (VStr "01").
  exists 1%nat, 2%nat, (PyFloat "1700000000.5"), (PyFloat "1700000000.75").
  exact hash_payload_sensitive.
Qed.

(** C4 as stated fails on the genesis block.  With a clock that always
    reads the same instant, the hash stored in the genesis block is not
    the digest of payload, previous hash, chain length and that instant,
    be the length counted before (0) or after (1) the block is put in. *)
Lemma genesis_hash_ignores_link_inputs :
  exists g,
    chain (snd (_create_genesis
                  (with_clock (fun _ => PyFloat "1700000000.5") sample_world)))
    = [g]
    /\ timestamp g = VFloat (PyFloat "1700000000.5")
    /\ current_hash g
       <> VStr (Sha256.hexdigest
                  (hash_payload (data g) (prev_hash g) 0 (PyFloat "1700000000.5")))
    /\ current_hash g
       <> VStr (Sha256.hexdigest
                  (hash_payload (data g) (prev_hash g) 1 (PyFloat "1700000000.5"))).
Proof.
  eexists. split; [reflexivity|]. split; [reflexivity|].
  split; vm_compute; intros H; discriminate H.
Qed.

(** C10.  Whatever the worlds [w1] and [w2] (their clocks included),
    [_create_genesis] gives in both a chain of one block with the same
    hash, the digest of the [repr] of the genesis payload, a constant.  An
    appended block is different: two worlds alike but for the clock give
    the same payload, on the same chain, different hashes. *)
Theorem genesis_hash_is_fixed (w1 w2 : World) :
  (exists g1 g2,
      chain (snd (_create_genesis w1)) = [g1]
      /\ chain (snd (_create_genesis w2)) = [g2]
      /\ timestamp g1 = VFloat (wall w1 (ticks w1))
      /\ timestamp g2 = VFloat (wall w2 (ticks w2))
      /\ current_hash g1 = current_hash g2
      /\ current_hash g1 = VStr (Sha256.hexdigest (repr (data g1)))
      /\ current_hash g1
         = VStr "09a92e70e409e5f70a00d99ea222413cd86d340d65e8237d8d18231cd336a8e1")
  /\ (exists d wa ba bb,
        fst (add_block d wa) = Ok ba
        /\ fst (add_block d (with_clock (fun n => sample_clock (n + 100)) wa)) = Ok bb
        /\ index ba = index bb
        /\ prev_hash ba = prev_hash bb
        /\ data ba = data bb
        /\ current_hash ba <> current_hash bb).
Proof.
  split.
  - rewrite !_create_genesis_eq. cbn [snd chain].
    eexists. eexists. split; [reflexivity|]. split; [reflexivity|].
    split; [reflexivity|]. split; [reflexivity|]. split; [reflexivity|].
    split; [reflexivity|]. vm_compute. reflexivity.
  - exists (transfer_data "ab" VNone "org"), started_world.
    eexists. eexists.
    split; [vm_compute; reflexivity|].
    split; [vm_compute; reflexivity|].
    vm_compute. repeat split. intros H. discriminate H.
Qed.

(* ===================================================================== *)
(** ** The theorems at sample inputs *)
(* ===================================================================== *)

Lemma chain_invariants_witness :
  reachable appended_world
  /\ (chain appended_world <> []
      /\ (exists b0, nth_error (chain appended_world) 0 = Some b0
                     /\ prev_hash b0 = VStr (str_mul "0" 64))
      /\ (forall i p b,
            nth_error (chain appended_world) i = Some p ->
            nth_error (chain appended_world) (S i) = Some b ->
            prev_hash b = current_hash p)
      /\ (forall i b, nth_error (chain appended_world) i = Some b ->
                      index b = VInt (Z.of_nat i))).
Proof.
  split.
  - apply reach_append, reach_genesis.
  - apply (chain_invariants appended_world). apply reach_append, reach_genesis.
Defined.

Lemma block_hashes_witness :
  reachable appended_world
  /\ ((exists g,
          nth_error (chain appended_world) 0 = Some g
          /\ data g = genesis_data
          /\ current_hash g = VStr (Sha256.hexdigest (repr (data g))))
      /\ (forall i b,
            nth_error (chain appended_world) (S i) = Some b ->
            exists k,
              timestamp b = VFloat (wall appended_world (S k))
              /\ current_hash b
                 = VStr (Sha256.hexdigest
                           (hash_payload (data b) (prev_hash b) (S i)
                              (wall appended_world k))))).
Proof.
  split.
  - apply reach_append, reach_genesis.
  - destruct (block_hashes appended_world) as (Hg & Hrest & _);
      [apply reach_append, reach_genesis|].
    split; assumption.
Defined.


Lemma resolve_owner_examples_witness :
  getitem item_mint "data" = Ok (VDict
    [ ("type", VStr "MINT"); ("cert_hash", VStr "fp"); ("file_hash", VStr "fh");
      ("student_name", VStr "Ana"); ("course", VStr "CS101"); ("year", VStr "2025");
      ("owner", VStr "Ana") ]%string)
  /\ resolve_owner [item_mint] = Ok (VStr "Ana")
  /\ resolve_owner [item_mint; item_transfer 2 "Ana" "Bob"] = Ok (VStr "Bob")
  /\ resolve_owner [item_mint; item_transfer 2 "Ana" "Bob"; item_transfer 3 "Bob" "Carol"]
     = Ok (VStr "Carol")
  /\ resolve_owner [] = Ok VNone.
Proof.
  split; [reflexivity|].
  eapply (resolve_owner_examples
            item_mint (item_transfer 2 "Ana" "Bob") (item_transfer 3 "Bob" "Carol"));
    reflexivity.
Defined.

Lemma mint_twice_is_duplicate_witness :
  payloads_are_dicts (chain started_world) = true
  /\ files started_world "ana.pdf" = Some "certificate of Ana"%string
  /\ exists fp w1 w2,
       fp = cert_fingerprint (Sha256.hexdigest "certificate of Ana") "Ana" "CS101" "2025"
       /\ mint_flow "Ana" "CS101" "2025" "ana.pdf" started_world = (Ok tt, w1)
       /\ has_cert_hash fp w1 = (Ok true, w1)
       /\ mint_flow "Ana" "CS101" "2025" "ana.pdf" w1 = (Ok tt, w2)
       /\ chain w2 = chain w1
       /\ chain_file w2 = chain_file w1
       /\ console w2 = console w1 ++ [AlreadyRegistered fp].
Proof.
  assert (Hd : payloads_are_dicts (chain started_world) = true)
    by (vm_compute; reflexivity).
  assert (Hne : chain started_world <> [])
    by (vm_compute; intros E; discriminate E).
  assert (Hf : files started_world "ana.pdf" = Some "certificate of Ana"%string)
    by (vm_compute; reflexivity).
  split; [exact Hd|]. split; [exact Hf|].
  destruct (mint_twice_is_duplicate started_world "Ana" "CS101" "2025"
              "ana.pdf" "certificate of Ana" "ana.pdf" "certificate of Ana"
              Hd Hne Hf Hf eq_refl)
    as (_ & _ & w1 & w2 & H1 & _ & H2 & H3 & H4 & H5 & H6).
  eexists. exists w1, w2. split; [reflexivity|].
  repeat split; assumption.
Defined.

Lemma has_cert_hash_spec_witness :
  payloads_are_dicts (chain started_world) = true
  /\ files started_world "ana.pdf" = Some "certificate of Ana"%string
  /\ (exists r,
         has_cert_hash "ab" started_world = (Ok r, started_world)
         /\ (r = true <->
             exists b, In b (chain started_world) /\ carries_cert_hash b "ab"))
  /\ exists minted w1 w2,
       minted = cert_fingerprint (Sha256.hexdigest "certificate of Ana")
                  "Ana" "CS101" "2025"
       /\ mint_flow "Ana" "CS101" "2025" "ana.pdf" started_world = (Ok tt, w1)
       /\ has_cert_hash minted w1 = (Ok true, w1)
       /\ run_transfers [(minted, "org@example.com"); ("ab", "nobody")]%string w1
          = (Ok tt, w2)
       /\ has_cert_hash minted w2 = (Ok true, w2).
Proof.
  assert (Hd : payloads_are_dicts (chain started_world) = true)
    by (vm_compute; reflexivity).
  assert (Hne : chain started_world <> [])
    by (vm_compute; intros E; discriminate E).
  assert (Hf : files started_world "ana.pdf" = Some "certificate of Ana"%string)
    by (vm_compute; reflexivity).
  split; [exact Hd|]. split; [exact Hf|].
  destruct (has_cert_hash_spec started_world "ab" "Ana" "CS101" "2025"
              "ana.pdf" "certificate of Ana"
              [(cert_fingerprint (Sha256.hexdigest "certificate of Ana")
                  "Ana" "CS101" "2025", "org@example.com"); ("ab", "nobody")]%string
              Hd Hne Hf)
    as (Hiff & w1 & w2 & H1 & H2 & H3 & H4).
  split; [exact Hiff|].
  eexists. exists w1, w2. split; [reflexivity|].
  repeat split; assumption.
Defined.

Lemma transfer_flow_spec_witness :
  payloads_are_dicts (chain started_world) = true
  /\ exists hist w',
       history "ab" started_world = (Ok hist, started_world)
       /\ transfer_flow "ab" "org@example.com" started_world = (Ok tt, w')
       /\ (hist = []
           /\ chain w' = chain started_world
           /\ chain_file w' = chain_file started_world
           /\ console w' = console started_world ++ [NoRecord]
           \/
           hist <> []
           /\ chain w' <> chain started_world
           /\ exists owner blk,
                resolve_owner hist = Ok owner
                /\ chain w' = chain started_world ++ [blk]
                /\ data blk = transfer_data "ab" owner "org@example.com"
                /\ Py.get (data blk) "type" VNone = Ok (VStr "TRANSFER")
                /\ Py.get (data blk) "cert_hash" VNone = Ok (VStr "ab")
                /\ Py.get (data blk) "from" VNone = Ok owner
                /\ Py.get (data blk) "to" VNone = Ok (VStr "org@example.com")
                /\ chain_file w' = Json (serialize_chain (chain w'))).
Proof.
  assert (Hd : payloads_are_dicts (chain started_world) = true)
    by (vm_compute; reflexivity).
  split; [exact Hd|].
  exact (transfer_flow_spec started_world "ab" "org@example.com" Hd).
Defined.


Lemma serialize_load_roundtrip_witness :
  chain_file (with_file (chain_file (snd (_save appended_world))) sample_world)
  = chain_file (snd (_save appended_world))
  /\ (exists w3,
         _load (with_file (chain_file (snd (_save appended_world))) sample_world)
         = (Ok tt, w3)
         /\ chain w3 = chain appended_world)
  /\ (exists w4,
         __init__ (with_file (chain_file (snd (_save appended_world))) sample_world)
         = (Ok tt, w4)
         /\ chain w4 = chain appended_world).
Proof.
  split; [reflexivity|].
  destruct (serialize_load_roundtrip appended_world
              (with_file (chain_file (snd (_save appended_world))) sample_world)
              eq_refl)
    as (_ & _ & _ & (w3 & H3 & C3 & _) & (w4 & H4 & C4 & _)).
  split; [exists w3 | exists w4]; split; assumption.
Defined.

(* ===================================================================== *)
(** ** Further properties: looking up *)
(* ===================================================================== *)

Lemma history_of_in (c : list Block) (fp : string) (h : value) :
  In h (map asdict (filter (has_fp fp) c))
  <-> exists b, In b c /\ carries_cert_hash b fp /\ h = asdict b.
Proof.
  rewrite in_map_iff. split.
  - intros (b & <- & Hb). apply filter_In in Hb. destruct Hb as [Hin Hfp].
    exists b. split; [exact Hin|]. split; [apply has_fp_carries; exact Hfp | reflexivity].
  - intros (b & Hin & Hc & ->). exists b. split; [reflexivity|].
    apply filter_In. split; [exact Hin | apply has_fp_carries; exact Hc].
Qed.

Lemma existsb_filter_nonempty (f : Block -> bool) (c : list Block) :
  existsb f c = true <-> filter f c <> [].
Proof.
  induction c as [|b c IH]; cbn [existsb filter].
  - split; [discriminate | congruence].
  - destruct (f b); cbn [orb]; [split; [discriminate | reflexivity] | exact IH].
Qed.

(** X1.  On a chain whose payloads are mappings, [has_cert_hash] and
    [history] both return, and agree: the first is true exactly when the
    second is not empty.  The history is made of the serialized blocks that
    carry the fingerprint, all of them, in the order of the chain. *)
Theorem history_agrees_with_has_cert_hash (w : World) (fp : string) :
  payloads_are_dicts (chain w) = true ->
  exists r hist,
    has_cert_hash fp w = (Ok r, w)
    /\ history fp w = (Ok hist, w)
    /\ (r = true <-> hist <> [])
    /\ hist = map asdict (filter (has_fp fp) (chain w))
    /\ (forall h, In h hist <->
                  exists b, In b (chain w) /\ carries_cert_hash b fp /\ h = asdict b).
Proof.
  intros Hd.
  exists (existsb (has_fp fp) (chain w)), (map asdict (filter (has_fp fp) (chain w))).
  split; [unfold has_cert_hash; run_eff; rewrite (any_cert_hash_dicts _ fp Hd); reflexivity|].
  split; [unfold history; run_eff; rewrite (history_of_dicts _ fp Hd); reflexivity|].
  split; [|split; [reflexivity | intros h; apply history_of_in]].
  rewrite existsb_filter_nonempty. split; intros H.
  - intros E. apply map_eq_nil in E. exact (H E).
  - intros E. apply H. rewrite E. reflexivity.
Qed.

Lemma history_of_non_dict (pre post : list Block) (b : Block) (fp : string) :
  payloads_are_dicts pre = true -> is_dict (data b) = false ->
  history_of (pre ++ b :: post) fp = Raise AttributeError.
Proof.
  intros Hpre Hb. induction pre as [|x pre IH].
  - cbn [app history_of]. destruct (data b); try discriminate; reflexivity.
  - cbn [payloads_are_dicts forallb] in Hpre. apply andb_true_iff in Hpre.
    destruct Hpre as [Hx Hpre].
    destruct (get_cert_hash_dict x fp Hx) as (v & Hv & _).
    cbn [app history_of]. rewrite Hv, (IH Hpre). reflexivity.
Qed.

Lemma any_cert_hash_non_dict (pre post : list Block) (b : Block) (fp : string) :
  payloads_are_dicts pre = true -> is_dict (data b) = false ->
  any_cert_hash (pre ++ b :: post) fp
  = if existsb (has_fp fp) pre then Ok true else Raise AttributeError.
Proof.
  intros Hpre Hb. induction pre as [|x pre IH].
  - cbn [app any_cert_hash existsb]. destruct (data b); try discriminate; reflexivity.
  - cbn [payloads_are_dicts forallb] in Hpre. apply andb_true_iff in Hpre.
    destruct Hpre as [Hx Hpre].
    destruct (get_cert_hash_dict x fp Hx) as (v & Hv & Hfp).
    cbn [app any_cert_hash existsb]. rewrite Hv, Hfp.
    destruct (has_fp fp x); [reflexivity | exact (IH Hpre)].
Qed.

(** X2.  When some payload of the chain is not a mapping (the first such
    block is [b], after the blocks [pre]), [history] raises
    [AttributeError] and so does [transfer_flow], which changes nothing;
    [has_cert_hash] still answers true when a block of [pre] carries the
    fingerprint, because it stops at the first match, and raises
    otherwise. *)
Theorem non_dict_payload_breaks_lookup
    (w : World) (pre post : list Block) (b : Block) (fp new_owner : string) :
  chain w = pre ++ b :: post ->
  payloads_are_dicts pre = true ->
  is_dict (data b) = false ->
  history fp w = (Raise AttributeError, w)
  /\ transfer_flow fp new_owner w = (Raise AttributeError, w)
  /\ has_cert_hash fp w
     = (if existsb (has_fp fp) pre then Ok true else Raise AttributeError, w).
Proof.
  intros Hc Hpre Hb.
  pose proof (history_of_non_dict pre post b fp Hpre Hb) as Hh.
  pose proof (any_cert_hash_non_dict pre post b fp Hpre Hb) as Ha.
  rewrite <- Hc in Hh, Ha.
  split; [unfold history; run_eff; rewrite Hh; reflexivity|].
  split; [run_flow; rewrite Hh; reflexivity|].
  unfold has_cert_hash. run_eff. rewrite Ha. reflexivity.
Qed.

(* ===================================================================== *)
(** ** Further properties: starting *)
(* ===================================================================== *)

Lemma __init___no_file (w : World) :
  chain_file w = NoFile -> __init__ w = (Ok tt, fresh w).
Proof. intros Hf. run_init. rewrite Hf. reflexivity. Qed.

Lemma __init___unreadable (w : World) :
  chain_file w = Unreadable -> __init__ w = (Ok tt, recovered w ValueError).
Proof. intros Hf. run_init. rewrite Hf. reflexivity. Qed.

Lemma __init___not_iterable (w : World) (raw : value) (e : exn) :
  chain_file w = Json raw -> iter raw = Raise e ->
  __init__ w = (Ok tt, recovered w TypeError).
Proof.
  intros Hf Hi.
  assert (e = TypeError) by (destruct raw; cbn in Hi; congruence). subst e.
  run_init. rewrite Hf. run_init. rewrite Hi. reflexivity.
Qed.

(** X3.  A chain file that holds an empty list, an empty object or an
    empty string is loaded without complaint: [__init__] ends with an
    empty chain, creates no genesis block, and leaves file, clock and
    console alone. *)
Theorem init_loads_empty_chain (w : World) (raw : value) :
  chain_file w = Json raw ->
  raw = VList [] \/ raw = VDict [] \/ raw = VStr EmptyString ->
  exists w',
    __init__ w = (Ok tt, w')
    /\ chain w' = []
    /\ chain_file w' = chain_file w
    /\ ticks w' = ticks w
    /\ console w' = console w.
Proof.
  intros Hf Hraw. eexists. split.
  - apply (__init___loaded w raw [] [] Hf); [|reflexivity].
    destruct Hraw as [->|[->| ->]]; reflexivity.
  - cbn [chain chain_file ticks console]. repeat split.
Qed.

(** X4.  On an empty chain [add_block] raises [IndexError] and changes
    nothing; [mint_flow], once it has read the file, raises it too and
    appends nothing; [transfer_flow] finds no history and says so. *)
Theorem empty_chain_rejects_appends
    (w : World) (d : value) (student course year file_path content : string)
    (cert_hash new_owner : string) :
  chain w = [] ->
  files w file_path = Some content ->
  add_block d w = (Raise IndexError, w)
  /\ mint_flow student course year file_path w = (Raise IndexError, w)
  /\ transfer_flow cert_hash new_owner w = (Ok tt, told NoRecord w).
Proof.
  intros Hc Hf. split; [apply add_block_empty; exact Hc|]. split.
  - run_flow. rewrite Hf. run_flow. rewrite Hc. cbn [any_cert_hash]. run_flow.
    rewrite ?Hc. reflexivity.
  - apply transfer_flow_unknown. rewrite Hc. reflexivity.
Qed.


Lemma field_name_test (k : string) :
  existsb (String.eqb k) Block_fields = true <-> In k Block_fields.
Proof.
  rewrite existsb_exists. split.
  - intros (f & Hf & Heq). apply String.eqb_eq in Heq. subst f. exact Hf.
  - intros Hk. exists k. split; [exact Hk | apply String.eqb_refl].
Qed.

(** A record becomes a block exactly when it is a mapping in which
    each of the five field names has a value and no other key occurs; the
    block then holds those five values.  The order of the keys plays no
    part, and neither do the types of the values. *)
Theorem Block_kwargs_accepts (r : value) (b : Block) :
  Block_kwargs r = Ok b
  <-> exists d,
        r = VDict d
        /\ (forall k x, In (k, x) d -> In k Block_fields)
        /\ lookup "index" d = Some (index b)
        /\ lookup "timestamp" d = Some (timestamp b)
        /\ lookup "prev_hash" d = Some (prev_hash b)
        /\ lookup "data" d = Some (data b)
        /\ lookup "current_hash" d = Some (current_hash b).
Proof.
  split.
  - unfold Block_kwargs. destruct r as [| | | | | |d]; try discriminate.
    destruct (forallb _ _) eqn:Hall; [|discriminate].
    destruct (lookup "index" d) as [i|] eqn:Hi; [|discriminate].
    destruct (lookup "timestamp" d) as [t|] eqn:Ht; [|discriminate].
    destruct (lookup "prev_hash" d) as [p|] eqn:Hp; [|discriminate].
    destruct (lookup "data" d) as [x|] eqn:Hx; [|discriminate].
    destruct (lookup "current_hash" d) as [c|] eqn:Hc; [|discriminate].
    intros [= <-]. exists d. split; [reflexivity|].
    split; [|repeat split; assumption].
    intros k y Hin. apply field_name_test.
    rewrite forallb_forall in Hall. apply Hall.
    exact (in_map fst _ _ Hin).
  - intros (d & -> & Hkeys & Hi & Ht & Hp & Hx & Hc). unfold Block_kwargs.
    assert (Hall : forallb (fun k => existsb (String.eqb k) Block_fields) (map fst d)
                   = true).
    { apply forallb_forall. intros k Hk. apply in_map_iff in Hk.
      destruct Hk as ([k' x] & <- & Hin). apply field_name_test.
      exact (Hkeys _ _ Hin). }
    rewrite Hall, Hi, Ht, Hp, Hx, Hc. destruct b. reflexivity.
Qed.

(* ===================================================================== *)
(** ** Further properties: the shape of a digest *)
(* ===================================================================== *)

Lemma hex_length (bs : list Z) : String.length (Sha256.hex bs) = (2 * length bs)%nat.
Proof.
  induction bs as [|b bs IH]; [reflexivity|].
  cbn [Sha256.hex String.length length]. rewrite IH. lia.
Qed.

Lemma be_bytes_length (n : nat) (x : Z) : length (Sha256.be_bytes n x) = n.
Proof. unfold Sha256.be_bytes. rewrite length_map, length_rev, length_seq. reflexivity. Qed.

Lemma compress_length (hs block : list Z) :
  length hs = 8%nat -> length (Sha256.compress hs block) = 8%nat.
Proof.
  intros H.
  do 8 (destruct hs as [|? hs]; [discriminate H|]).
  destruct hs; [|discriminate H].
  unfold Sha256.compress.
  destruct (Sha256.vars _) as [[[[[[[a' b'] c'] d'] e'] f'] g'] h'].
  reflexivity.
Qed.

Lemma fold_compress_length (bl : list (list Z)) (hs : list Z) :
  length hs = 8%nat -> length (fold_left Sha256.compress bl hs) = 8%nat.
Proof.
  revert hs. induction bl as [|b bl IH]; intros hs H; [exact H|].
  cbn [fold_left]. apply IH. apply compress_length. exact H.
Qed.

Lemma flat_map_be_bytes_length (hs : list Z) :
  length (flat_map (Sha256.be_bytes 4) hs) = (4 * length hs)%nat.
Proof.
  induction hs as [|h hs IH]; [reflexivity|].
  cbn [flat_map]. rewrite length_app, be_bytes_length, IH. cbn [length]. lia.
Qed.

(** A digest is always 64 characters long. *)
Lemma hexdigest_length (s : string) : String.length (Sha256.hexdigest s) = 64%nat.
Proof.
  unfold Sha256.hexdigest, Sha256.digest.
  rewrite hex_length, flat_map_be_bytes_length, fold_compress_length; reflexivity.
Qed.

(* ===================================================================== *)
(** ** Further properties: what the flows keep true *)
(* ===================================================================== *)

Lemma linked_genesis (t : pyfloat) : linked [genesis_block t].
Proof.
  split; [|split].
  - eexists. split; reflexivity.
  - intros [|i] p b _ Hb; [discriminate Hb | destruct i; discriminate Hb].
  - intros [|i] b Hb; [|destruct i; discriminate Hb].
    injection Hb as <-. reflexivity.
Qed.

Lemma linked_snoc (c : list Block) (lb b : Block) :
  linked c -> last_opt c = Some lb ->
  index b = VInt (Z.of_nat (length c)) ->
  prev_hash b = current_hash lb ->
  linked (c ++ [b]).
Proof.
  intros ((b0 & Hb0 & Hs) & Hlink & Hidx) Hlb Hi Hp.
  pose proof (last_opt_nth _ _ Hlb) as Hlast.
  assert (Hlen : (0 < length c)%nat) by (destruct c; [discriminate Hlb | cbn; lia]).
  split; [|split].
  - exists b0. split; [|exact Hs]. rewrite nth_error_app1 by exact Hlen. exact Hb0.
  - intros i p x Hpx Hx.
    destruct (nth_error_snoc _ _ _ _ Hx) as [[Hlt Hx']|[Hix ->]].
    + apply (Hlink i); [|exact Hx'].
      rewrite nth_error_app1 in Hpx by lia. exact Hpx.
    + rewrite nth_error_app1 in Hpx by lia.
      replace i with (length c - 1)%nat in Hpx by lia.
      rewrite Hlast in Hpx. injection Hpx as <-. exact Hp.
  - intros i x Hx.
    destruct (nth_error_snoc _ _ _ _ Hx) as [[Hlt Hx']|[-> ->]].
    + apply Hidx. exact Hx'.
    + exact Hi.
Qed.

Lemma filter_snoc (f : Block -> bool) (c : list Block) (b : Block) :
  filter f (c ++ [b]) = filter f c ++ (if f b then [b] else []).
Proof. rewrite filter_app. cbn [filter]. destruct (f b); reflexivity. Qed.

Lemma has_fp_mint (fp fp' fhash student course year : string) (b : Block) :
  data b = mint_data fp fhash student course year ->
  has_fp fp' b = String.eqb fp fp'.
Proof. intros H. unfold has_fp. rewrite H. reflexivity. Qed.

Lemma has_fp_transfer (fp fp' new_owner : string) (o : value) (b : Block) :
  data b = transfer_data fp o new_owner ->
  has_fp fp' b = String.eqb fp fp'.
Proof. intros H. unfold has_fp. rewrite H. reflexivity. Qed.

Lemma owner_step_asdict_mint (cur : value) (m : Block)
    (fp fhash student course year : string) :
  data m = mint_data fp fhash student course year ->
  owner_step cur (asdict m) = Ok (VStr student).
Proof.
  intros H. unfold owner_step, asdict.
  cbn [getitem lookup String.eqb Ascii.eqb Bool.eqb]. rewrite H. reflexivity.
Qed.

Lemma owner_step_asdict_transfer (cur o : value) (t : Block) (fp new_owner : string) :
  data t = transfer_data fp o new_owner ->
  owner_step cur (asdict t) = Ok (VStr new_owner).
Proof.
  intros H. unfold owner_step, asdict.
  cbn [getitem lookup String.eqb Ascii.eqb Bool.eqb]. rewrite H. reflexivity.
Qed.


Lemma handed_over_snoc (fp : string) (ts : list Block) (cur o : value)
    (b : Block) (new_owner : string) :
  handed_over fp cur ts ->
  owner_loop cur (map asdict ts) = Ok o ->
  data b = transfer_data fp o new_owner ->
  handed_over fp cur (ts ++ [b]).
Proof.
  revert cur. induction ts as [|t ts IH]; intros cur H Ho Hb.
  - cbn in Ho. injection Ho as <-. exists new_owner. split; [exact Hb | exact I].
  - destruct H as (n & Ht & Hrest). cbn [map owner_loop] in Ho.
    rewrite (owner_step_asdict_transfer _ _ _ _ _ Ht) in Ho.
    exists n. split; [exact Ht|]. apply IH; assumption.
Qed.

Lemma sound_genesis (t : pyfloat) : sound_chain [genesis_block t].
Proof.
  split; [reflexivity|]. split; [discriminate|]. split; [apply linked_genesis|].
  split; [intros fp; left; reflexivity|].
  constructor; [|constructor]. split.
  - eexists. split; [reflexivity|]. vm_compute. reflexivity.
  - eexists. split; [reflexivity|]. apply hexdigest_length.
Qed.

Lemma hash64_snoc (w : World) (c : list Block) (lb : Block) (d : value) :
  Forall (fun b => hash64 (prev_hash b) /\ hash64 (current_hash b)) c ->
  last_opt c = Some lb ->
  Forall (fun b => hash64 (prev_hash b) /\ hash64 (current_hash b))
         (c ++ [new_block w lb d]).
Proof.
  intros Hall Hlb. apply Forall_app. split; [exact Hall|].
  constructor; [|constructor]. split.
  - rewrite Forall_forall in Hall. apply (Hall lb (last_opt_in _ _ Hlb)).
  - eexists. split; [reflexivity|]. apply hexdigest_length.
Qed.

Lemma sound_mint (w : World) (lb : Block) (fp fhash student course year : string) :
  sound_chain (chain w) ->
  last_opt (chain w) = Some lb ->
  existsb (has_fp fp) (chain w) = false ->
  sound_chain (chain w ++ [new_block w lb (mint_data fp fhash student course year)]).
Proof.
  intros (Hd & Hne & Hl & Hp & Hh) Hlb Hex.
  split; [apply payloads_are_dicts_snoc; [exact Hd | reflexivity]|].
  split; [intros E; apply app_eq_nil in E; destruct E; discriminate|].
  split; [apply (linked_snoc _ lb); [exact Hl | exact Hlb | reflexivity | reflexivity]|].
  split; [|apply (hash64_snoc w _ lb); [exact Hh | exact Hlb]].
  intros fp'. rewrite filter_snoc.
  rewrite (has_fp_mint fp fp' fhash student course year) by reflexivity.
  destruct (String.eqb fp fp') eqn:E.
  - apply String.eqb_eq in E. subst fp'.
    assert (Hnil : filter (has_fp fp) (chain w) = []).
    { destruct (filter (has_fp fp) (chain w)) eqn:Ef; [reflexivity|].
      assert (Ht : existsb (has_fp fp) (chain w) = true)
        by (apply existsb_filter_nonempty; rewrite Ef; discriminate).
      congruence. }
    rewrite Hnil. right. eexists. exists []. exists fhash, student, course, year.
    split; [reflexivity|]. split; [reflexivity | exact I].
  - rewrite app_nil_r. apply Hp.
Qed.

Lemma sound_transfer (w : World) (lb : Block) (fp new_owner : string) (o : value) :
  sound_chain (chain w) ->
  last_opt (chain w) = Some lb ->
  filter (has_fp fp) (chain w) <> [] ->
  resolve_owner (map asdict (filter (has_fp fp) (chain w))) = Ok o ->
  sound_chain (chain w ++ [new_block w lb (transfer_data fp o new_owner)]).
Proof.
  intros (Hd & Hne & Hl & Hp & Hh) Hlb Hknown Ho.
  split; [apply payloads_are_dicts_snoc; [exact Hd | reflexivity]|].
  split; [intros E; apply app_eq_nil in E; destruct E; discriminate|].
  split; [apply (linked_snoc _ lb); [exact Hl | exact Hlb | reflexivity | reflexivity]|].
  split; [|apply (hash64_snoc w _ lb); [exact Hh | exact Hlb]].
  intros fp'. rewrite filter_snoc.
  rewrite (has_fp_transfer fp fp' new_owner o) by reflexivity.
  destruct (String.eqb fp fp') eqn:E.
  - apply String.eqb_eq in E. subst fp'.
    destruct (Hp fp) as [Hnil|(m & ts & fh & s & c & y & Hm & Hmd & Hts)];
      [contradiction|].
    rewrite Hm in Ho |- *. right.
    exists m, (ts ++ [new_block w lb (transfer_data fp o new_owner)]).
    exists fh, s, c, y. split; [reflexivity|]. split; [exact Hmd|].
    unfold resolve_owner in Ho. cbn [map owner_loop] in Ho.
    rewrite (owner_step_asdict_mint _ _ _ _ _ _ _ Hmd) in Ho.
    apply (handed_over_snoc fp ts (VStr s) o _ new_owner Hts Ho). reflexivity.
  - rewrite app_nil_r. apply Hp.
Qed.

Lemma mint_flow_keeps (w : World) (student course year file_path : string) :
  flow_inv w ->
  fst (mint_flow student course year file_path w) = Ok tt
  /\ flow_inv (snd (mint_flow student course year file_path w)).
Proof.
  intros [Hs Hfile]. pose proof Hs as (Hd & Hne & _).
  destruct (files w file_path) as [content|] eqn:Hf.
  - pose proof (any_cert_hash_dicts _
                  (cert_fingerprint (Sha256.hexdigest content) student course year) Hd)
      as Ha.
    destruct (existsb _ (chain w)) eqn:Ex.
    + rewrite (mint_flow_duplicate w student course year _ _ Hf Ha).
      split; [reflexivity|]. split; assumption.
    + destruct (last_opt_nonempty _ Hne) as [lb Hlb].
      rewrite (mint_flow_fresh w student course year _ _ lb Hf Ha Hlb).
      split; [reflexivity|]. split; [|reflexivity].
      cbn [snd chain]. apply sound_mint; assumption.
  - rewrite (mint_flow_no_file w student course year _ Hf).
    split; [reflexivity|]. split; assumption.
Qed.

Lemma transfer_flow_keeps (w : World) (cert_hash new_owner : string) :
  flow_inv w ->
  fst (transfer_flow cert_hash new_owner w) = Ok tt
  /\ flow_inv (snd (transfer_flow cert_hash new_owner w)).
Proof.
  intros [Hs Hfile]. pose proof Hs as (Hd & Hne & _).
  pose proof (history_of_dicts _ cert_hash Hd) as Hh.
  destruct (filter (has_fp cert_hash) (chain w)) as [|b bs] eqn:Ef.
  - rewrite (transfer_flow_unknown w cert_hash new_owner Hh).
    split; [reflexivity|]. split; assumption.
  - destruct (last_opt_nonempty _ Hne) as [lb Hlb].
    destruct (owner_loop_dicts (b :: bs) VNone) as [owner Ho].
    { rewrite <- Ef. apply payloads_are_dicts_filter. exact Hd. }
    rewrite (transfer_flow_known w cert_hash new_owner _ _ owner lb Hh Ho Hlb).
    split; [reflexivity|]. split; [|reflexivity].
    cbn [snd chain]. apply sound_transfer; try assumption.
    + rewrite Ef. discriminate.
    + rewrite Ef. exact Ho.
Qed.

Lemma flow_inv_reachable (w : World) : flow_reachable w -> flow_inv w.
Proof.
  induction 1 as [w [Hf|Hf] | w w2 Hr IH Hf | w s c y p Hr IH | w fp o Hr IH].
  - rewrite (__init___no_file w Hf). split; [apply sound_genesis | reflexivity].
  - rewrite (__init___unreadable w Hf). split; [apply sound_genesis | reflexivity].
  - destruct IH as [Hs Hfile]. rewrite Hfile in Hf.
    rewrite (__init___loaded w2 _ (map asdict (chain w)) (chain w) Hf eq_refl
               (mapM_asdict _)).
    split; [exact Hs | exact Hf].
  - apply mint_flow_keeps. exact IH.
  - apply transfer_flow_keeps. exact IH.
Qed.


(** X8.  The linkage of the chain survives everything a user can do: in
    every world the flows lead to, restarts included, the chain is not
    empty, block 0 has the 64 zeros as [prev_hash], every later block has
    the hash of the block before it as [prev_hash], and every [index] is
    the position of its block. *)
Theorem flow_chain_linked (w : World) :
  flow_reachable w ->
  chain w <> []
  /\ (exists b0, nth_error (chain w) 0 = Some b0
                 /\ prev_hash b0 = VStr (str_mul "0" 64))
  /\ (forall i p b,
        nth_error (chain w) i = Some p ->
        nth_error (chain w) (S i) = Some b ->
        prev_hash b = current_hash p)
  /\ (forall i b, nth_error (chain w) i = Some b -> index b = VInt (Z.of_nat i)).
Proof.
  intros Hr. destruct (flow_inv_reachable w Hr) as [(_ & Hne & Hl & _) _].
  split; [exact Hne | exact Hl].
Qed.

(** X9.  In every world the flows lead to, the history of a fingerprint
    is empty, or it starts with the one MINT block of that fingerprint and
    goes on with TRANSFER blocks only, each of which names as [from] the
    owner the blocks before it give: the student for the first, the [to]
    of the transfer before for the others. *)
Theorem flow_provenance (w : World) (fp : string) :
  flow_reachable w ->
  exists bs,
    history fp w = (Ok (map asdict bs), w)
    /\ (bs = []
        \/ exists m ts fhash student course year,
             bs = m :: ts
             /\ data m = mint_data fp fhash student course year
             /\ handed_over fp (VStr student) ts).
Proof.
  intros Hr. destruct (flow_inv_reachable w Hr) as [(Hd & _ & _ & Hp & _) _].
  exists (filter (has_fp fp) (chain w)). split; [|apply Hp].
  unfold history. run_eff. rewrite (history_of_dicts _ fp Hd). reflexivity.
Qed.



(** X12.  In every world the flows lead to, the [prev_hash] and the
    [current_hash] of every block are strings of 64 characters. *)
Theorem flow_hashes_are_64_chars (w : World) (b : Block) :
  flow_reachable w ->
  In b (chain w) ->
  (exists p, prev_hash b = VStr p /\ String.length p = 64%nat)
  /\ (exists h, current_hash b = VStr h /\ String.length h = 64%nat).
Proof.
  intros Hr Hin. destruct (flow_inv_reachable w Hr) as [(_ & _ & _ & _ & Hh) _].
  rewrite Forall_forall in Hh. exact (Hh b Hin).
Qed.

(* ===================================================================== *)
(** ** Further properties: what a flow does to the owner *)
(* ===================================================================== *)

Lemma history_of_ok_dicts (c : list Block) (fp : string) (hs : list value) :
  history_of c fp = Ok hs -> payloads_are_dicts c = true.
Proof.
  revert hs. induction c as [|b c IH]; intros hs H; [reflexivity|].
  cbn [history_of] in H. cbn [payloads_are_dicts forallb].
  destruct (data b) eqn:Eb; try discriminate H. cbn [is_dict andb].
  cbn [Py.get] in H.
  destruct (history_of c fp) as [hs'|e] eqn:Eh; [|discriminate H].
  exact (IH hs' eq_refl).
Qed.

Lemma any_cert_hash_false_dicts (c : list Block) (fp : string) :
  any_cert_hash c fp = Ok false ->
  payloads_are_dicts c = true /\ existsb (has_fp fp) c = false.
Proof.
  induction c as [|b c IH]; intros H; [split; reflexivity|].
  cbn [any_cert_hash] in H. cbn [payloads_are_dicts forallb existsb].
  unfold has_fp at 1.
  destruct (data b) eqn:Eb; try discriminate H. cbn [is_dict andb Py.get] in *.
  destruct (lookup "cert_hash" d) as [v|]; cbn [eq_str] in H |- *.
  - destruct (eq_str v fp); [discriminate H|]. cbn [orb]. exact (IH H).
  - cbn [orb]. exact (IH H).
Qed.

Lemma owner_loop_snoc (cur o : value) (hist : list value) (h : value) :
  owner_loop cur hist = Ok o ->
  owner_loop cur (hist ++ [h]) = owner_step o h.
Proof.
  intros H. rewrite owner_loop_app, H. cbn [owner_loop].
  destruct (owner_step o h); reflexivity.
Qed.

(** X13.  When the history of a certificate is not empty, a transfer adds
    exactly one item to it, the new block, at the end, and the owner
    derived from the new history is the new owner given. *)
Theorem transfer_makes_owner
    (w : World) (cert_hash new_owner : string) (h : value) (hs : list value) :
  history cert_hash w = (Ok (h :: hs), w) ->
  exists w' blk,
    transfer_flow cert_hash new_owner w = (Ok tt, w')
    /\ chain w' = chain w ++ [blk]
    /\ history cert_hash w' = (Ok ((h :: hs) ++ [asdict blk]), w')
    /\ resolve_owner ((h :: hs) ++ [asdict blk]) = Ok (VStr new_owner).
Proof.
  unfold history at 1. run_eff. intros H.
  assert (Hh : history_of (chain w) cert_hash = Ok (h :: hs)) by congruence.
  clear H. pose proof (history_of_ok_dicts _ _ _ Hh) as Hd.
  pose proof (history_of_dicts _ cert_hash Hd) as Hf. rewrite Hh in Hf.
  injection Hf as Hf.
  assert (Hne : chain w <> []) by (intros E; rewrite E in Hh; discriminate Hh).
  destruct (last_opt_nonempty _ Hne) as [lb Hlb].
  destruct (owner_loop_dicts (filter (has_fp cert_hash) (chain w)) VNone) as [owner Ho];
    [apply payloads_are_dicts_filter; exact Hd|].
  rewrite <- Hf in Ho.
  eexists. eexists.
  split; [exact (transfer_flow_known w cert_hash new_owner _ _ owner lb Hh Ho Hlb)|].
  cbn [chain]. split; [reflexivity|]. split.
  - unfold history. run_eff.
    rewrite history_of_dicts by (apply payloads_are_dicts_snoc; [exact Hd | reflexivity]).
    rewrite filter_snoc, (has_fp_transfer cert_hash cert_hash new_owner owner)
      by reflexivity.
    rewrite String.eqb_refl, map_app, <- Hf. reflexivity.
  - unfold resolve_owner. rewrite (owner_loop_snoc _ _ _ _ Ho).
    apply (owner_step_asdict_transfer _ owner _ cert_hash). reflexivity.
Qed.

(** X14.  When [has_cert_hash] answers false for the fingerprint of a
    certificate and the chain is not empty, [mint_flow] appends one block;
    the history of the fingerprint is then that block alone, and the owner
    derived from it is the student. *)
Theorem mint_makes_owner
    (w : World) (student course year file_path content : string) :
  chain w <> [] ->
  files w file_path = Some content ->
  has_cert_hash (cert_fingerprint (Sha256.hexdigest content) student course year) w
  = (Ok false, w) ->
  exists w' blk,
    mint_flow student course year file_path w = (Ok tt, w')
    /\ chain w' = chain w ++ [blk]
    /\ history (cert_fingerprint (Sha256.hexdigest content) student course year) w'
       = (Ok [asdict blk], w')
    /\ resolve_owner [asdict blk] = Ok (VStr student)
    /\ console w' = console w
                    ++ [Minted (VInt (Z.of_nat (length (chain w))))
                          (cert_fingerprint (Sha256.hexdigest content)
                             student course year)].
Proof.
  intros Hne Hf. set (fp := cert_fingerprint _ _ _ _).
  unfold has_cert_hash. run_eff. intros H.
  assert (Ha : any_cert_hash (chain w) fp = Ok false) by congruence. clear H.
  destruct (any_cert_hash_false_dicts _ _ Ha) as [Hd Hex].
  destruct (last_opt_nonempty _ Hne) as [lb Hlb].
  eexists. eexists.
  split; [exact (mint_flow_fresh w student course year _ _ lb Hf Ha Hlb)|].
  cbn [chain console]. fold fp. split; [reflexivity|]. split; [|split].
  - unfold history. run_eff.
    rewrite history_of_dicts by (apply payloads_are_dicts_snoc; [exact Hd | reflexivity]).
    rewrite filter_snoc.
    rewrite (has_fp_mint fp fp (Sha256.hexdigest content) student course year)
      by reflexivity.
    rewrite String.eqb_refl.
    assert (Hnil : filter (has_fp fp) (chain w) = []).
    { destruct (filter (has_fp fp) (chain w)) eqn:Ef; [reflexivity|].
      assert (Ht : existsb (has_fp fp) (chain w) = true)
        by (apply existsb_filter_nonempty; rewrite Ef; discriminate).
      congruence. }
    rewrite Hnil. reflexivity.
  - unfold resolve_owner. cbn [owner_loop].
    rewrite (owner_step_asdict_mint VNone _ fp (Sha256.hexdigest content)
               student course year) by reflexivity.
    reflexivity.
  - reflexivity.
Qed.

(** X15.  Whatever the history so far, the owner after one more item is
    decided by that item when it is a MINT with an [owner] or a TRANSFER
    with a [to]: the last write wins. *)
Theorem last_write_wins
    (hist : list value) (o : value) (h : value)
    (m : list (string * value)) (field : string) (a : value) :
  resolve_owner hist = Ok o ->
  getitem h "data" = Ok (VDict m) ->
  lookup "type" m = Some (VStr "MINT") /\ field = "owner"%string
  \/ lookup "type" m = Some (VStr "TRANSFER") /\ field = "to"%string ->
  lookup field m = Some a ->
  resolve_owner (hist ++ [h]) = Ok a.
Proof.
  intros Ho Hd Hty Ha. unfold resolve_owner in *.
  rewrite (owner_loop_snoc _ _ _ _ Ho).
  destruct Hty as [[Hty ->]|[Hty ->]].
  - exact (owner_step_mint h m Hd o a Hty Ha).
  - exact (owner_step_transfer h m Hd o a Hty Ha).
Qed.

(** X16.  An item that is neither a MINT nor a TRANSFER, a MINT without
    [owner], and a TRANSFER without [to] leave the owner as the items
    before them gave it. *)
Theorem other_items_keep_owner
    (hist : list value) (o : value) (h : value) (m : list (string * value)) :
  resolve_owner hist = Ok o ->
  getitem h "data" = Ok (VDict m) ->
  lookup "type" m = None
  \/ (exists ty, lookup "type" m = Some ty
                 /\ eq_str ty "MINT" = false /\ eq_str ty "TRANSFER" = false)
  \/ lookup "type" m = Some (VStr "MINT") /\ lookup "owner" m = None
  \/ lookup "type" m = Some (VStr "TRANSFER") /\ lookup "to" m = None ->
  resolve_owner (hist ++ [h]) = Ok o.
Proof.
  intros Ho Hd Hcase. unfold resolve_owner in *.
  rewrite (owner_loop_snoc _ _ _ _ Ho). unfold owner_step. rewrite Hd. cbn [Py.get].
  destruct Hcase as [Hty|[(ty & Hty & Hm & Ht)|[[Hty Hf]|[Hty Hf]]]]; rewrite Hty.
  - reflexivity.
  - rewrite Hm, Ht. reflexivity.
  - rewrite Hf. reflexivity.
  - rewrite Hf. reflexivity.
Qed.

(* ===================================================================== *)
(** ** Further properties: minting *)
(* ===================================================================== *)


Lemma str_app_assoc (a b c : string) : (a +++ b) +++ c = a +++ (b +++ c).
Proof. induction a as [|x a IH]; [reflexivity|]. cbn [String.append]. rewrite IH. reflexivity. Qed.

(** X18.  The bar that joins the parts of a fingerprint can be moved: a
    student whose name ends in a bar and a piece of text, with a course,
    has the fingerprint of the shorter name with that text, a bar and the
    course as course.  After the one is minted, the other is turned away
    as already registered. *)
Theorem fingerprint_bar_collision
    (w : World) (student text course year file_path content : string) :
  payloads_are_dicts (chain w) = true ->
  chain w <> [] ->
  files w file_path = Some content ->
  cert_fingerprint (Sha256.hexdigest content) (student +++ "|" +++ text) course year
  = cert_fingerprint (Sha256.hexdigest content) student (text +++ "|" +++ course) year
  /\ exists w1,
       mint_flow (student +++ "|" +++ text) course year file_path w = (Ok tt, w1)
       /\ mint_flow student (text +++ "|" +++ course) year file_path w1
          = (Ok tt,
             told (AlreadyRegistered
                     (cert_fingerprint (Sha256.hexdigest content)
                        student (text +++ "|" +++ course) year)) w1).
Proof.
  intros Hd Hne Hf.
  assert (Heq : cert_fingerprint (Sha256.hexdigest content)
                  (student +++ "|" +++ text) course year
                = cert_fingerprint (Sha256.hexdigest content)
                    student (text +++ "|" +++ course) year).
  { unfold cert_fingerprint. f_equal. f_equal.
    rewrite !str_app_assoc. reflexivity. }
  split; [exact Heq|].
  destruct (mint_flow_registers w (student +++ "|" +++ text) course year
              file_path content Hd Hne Hf)
    as (w1 & Hm & _ & _ & Hfiles & Hfp & _).
  exists w1. split; [exact Hm|].
  rewrite Heq in Hfp.
  apply (mint_flow_duplicate w1 student (text +++ "|" +++ course) year file_path content);
    [rewrite Hfiles; exact Hf | exact Hfp].
Qed.

(* ===================================================================== *)
(** ** Further properties: the chain only grows *)
(* ===================================================================== *)

Lemma last_opt_none (c : list Block) : last_opt c = None -> c = [].
Proof.
  induction c as [|b c IH]; [reflexivity|]. destruct c as [|y c]; [discriminate|].
  intros H. specialize (IH H). discriminate IH.
Qed.


(* ===================================================================== *)
(** ** The further properties at sample inputs *)
(* ===================================================================== *)

Lemma history_agrees_with_has_cert_hash_witness :
  payloads_are_dicts (chain tiny_world) = true
  /\ exists r hist,
       has_cert_hash "fp" tiny_world = (Ok r, tiny_world)
       /\ history "fp" tiny_world = (Ok hist, tiny_world)
       /\ (r = true <-> hist <> [])
       /\ hist = map asdict (filter (has_fp "fp") (chain tiny_world))
       /\ (forall h, In h hist <->
                     exists b, In b (chain tiny_world)
                               /\ carries_cert_hash b "fp" /\ h = asdict b).
Proof.
  split; [reflexivity|].
  exact (history_agrees_with_has_cert_hash tiny_world "fp" eq_refl).
Defined.

Lemma non_dict_payload_breaks_lookup_witness :
  payloads_are_dicts tiny_chain = true
  /\ is_dict (data odd_block) = false
  /\ history "fp" (with_clock sample_clock
                     {| chain := tiny_chain ++ [odd_block]; chain_file := NoFile;
                        files := files sample_world; wall := sample_clock;
                        ticks := 5; console := [] |})
     = (Raise AttributeError,
        with_clock sample_clock
          {| chain := tiny_chain ++ [odd_block]; chain_file := NoFile;
             files := files sample_world; wall := sample_clock;
             ticks := 5; console := [] |}).
Proof.
  split; [reflexivity|]. split; [reflexivity|].
  apply (non_dict_payload_breaks_lookup
           (with_clock sample_clock
              {| chain := tiny_chain ++ [odd_block]; chain_file := NoFile;
                 files := files sample_world; wall := sample_clock;
                 ticks := 5; console := [] |})
           tiny_chain [] odd_block "fp" "org"); reflexivity.
Defined.

Lemma init_loads_empty_chain_witness :
  chain_file (with_file (Json (VList [])) sample_world) = Json (VList [])
  /\ exists w',
       __init__ (with_file (Json (VList [])) sample_world) = (Ok tt, w')
       /\ chain w' = []
       /\ chain_file w' = chain_file (with_file (Json (VList [])) sample_world)
       /\ ticks w' = ticks (with_file (Json (VList [])) sample_world)
       /\ console w' = console (with_file (Json (VList [])) sample_world).
Proof.
  split; [reflexivity|].
  exact (init_loads_empty_chain (with_file (Json (VList [])) sample_world)
           (VList []) eq_refl (or_introl eq_refl)).
Defined.

Lemma empty_chain_rejects_appends_witness :
  chain sample_world = []
  /\ files sample_world "ana.pdf" = Some "certificate of Ana"%string
  /\ add_block genesis_data sample_world = (Raise IndexError, sample_world)
  /\ mint_flow "Ana" "CS101" "2025" "ana.pdf" sample_world
     = (Raise IndexError, sample_world)
  /\ transfer_flow "fp" "org" sample_world = (Ok tt, told NoRecord sample_world).
Proof.
  split; [reflexivity|]. split; [reflexivity|].
  exact (empty_chain_rejects_appends sample_world genesis_data
           "Ana" "CS101" "2025" "ana.pdf" "certificate of Ana" "fp" "org"
           eq_refl eq_refl).
Defined.

Lemma minted_world_reachable : flow_reachable minted_world.
Proof. apply flow_mint, flow_start. left. reflexivity. Qed.


Lemma flow_chain_linked_witness :
  flow_reachable minted_world
  /\ chain minted_world <> []
  /\ (forall i b, nth_error (chain minted_world) i = Some b ->
                  index b = VInt (Z.of_nat i)).
Proof.
  split; [exact minted_world_reachable|].
  destruct (flow_chain_linked minted_world minted_world_reachable)
    as (Hne & _ & _ & Hidx).
  split; assumption.
Defined.

Lemma flow_provenance_witness :
  flow_reachable minted_world
  /\ exists bs,
       history "fp" minted_world = (Ok (map asdict bs), minted_world)
       /\ (bs = []
           \/ exists m ts fhash student course year,
                bs = m :: ts
                /\ data m = mint_data "fp" fhash student course year
                /\ handed_over "fp" (VStr student) ts).
Proof.
  split; [exact minted_world_reachable|].
  exact (flow_provenance minted_world "fp" minted_world_reachable).
Defined.



Lemma flow_hashes_are_64_chars_witness :
  flow_reachable (snd (__init__ sample_world))
  /\ In (genesis_block (sample_clock 0)) (chain (snd (__init__ sample_world)))
  /\ (exists p, prev_hash (genesis_block (sample_clock 0)) = VStr p
                /\ String.length p = 64%nat)
  /\ (exists h, current_hash (genesis_block (sample_clock 0)) = VStr h
                /\ String.length h = 64%nat).
Proof.
  assert (Hr : flow_reachable (snd (__init__ sample_world)))
    by (apply flow_start; left; reflexivity).
  assert (Hin : In (genesis_block (sample_clock 0)) (chain (snd (__init__ sample_world))))
    by (left; reflexivity).
  split; [exact Hr|]. split; [exact Hin|].
  exact (flow_hashes_are_64_chars (snd (__init__ sample_world))
           (genesis_block (sample_clock 0)) Hr Hin).
Defined.

Lemma transfer_makes_owner_witness :
  history "fp" tiny_world
  = (Ok [asdict {| index := VInt 1; timestamp := VFloat (sample_clock 2);
                   prev_hash := VStr "aa";
                   data := mint_data "fp" "fh" "Ana" "CS101" "2025";
                   current_hash := VStr "bb" |}], tiny_world)
  /\ exists w' blk,
       transfer_flow "fp" "org" tiny_world = (Ok tt, w')
       /\ chain w' = chain tiny_world ++ [blk]
       /\ resolve_owner
            ([asdict {| index := VInt 1; timestamp := VFloat (sample_clock 2);
                        prev_hash := VStr "aa";
                        data := mint_data "fp" "fh" "Ana" "CS101" "2025";
                        current_hash := VStr "bb" |}] ++ [asdict blk])
          = Ok (VStr "org").
Proof.
  split; [reflexivity|].
  destruct (transfer_makes_owner tiny_world "fp" "org" _ [] eq_refl)
    as (w' & blk & H1 & H2 & _ & H4).
  exists w', blk. repeat split; assumption.
Defined.

Lemma mint_makes_owner_witness :
  chain (fresh sample_world) <> []
  /\ files (fresh sample_world) "ana.pdf" = Some "certificate of Ana"%string
  /\ exists w' blk,
       mint_flow "Ana" "CS101" "2025" "ana.pdf" (fresh sample_world) = (Ok tt, w')
       /\ chain w' = chain (fresh sample_world) ++ [blk]
       /\ resolve_owner [asdict blk] = Ok (VStr "Ana").
Proof.
  assert (Hne : chain (fresh sample_world) <> []) by discriminate.
  split; [exact Hne|]. split; [reflexivity|].
  destruct (mint_makes_owner (fresh sample_world) "Ana" "CS101" "2025" "ana.pdf"
              "certificate of Ana" Hne eq_refl eq_refl)
    as (w' & blk & H1 & H2 & _ & H4 & _).
  exists w', blk. repeat split; assumption.
Defined.

Lemma last_write_wins_witness :
  resolve_owner [item_mint] = Ok (VStr "Ana")
  /\ resolve_owner ([item_mint] ++ [item_transfer 2 "Ana" "Bob"]) = Ok (VStr "Bob").
Proof.
  split; [reflexivity|].
  eapply (last_write_wins [item_mint] (VStr "Ana") (item_transfer 2 "Ana" "Bob")
            _ "to" (VStr "Bob")).
  - reflexivity.
  - reflexivity.
  - right. split; reflexivity.
  - reflexivity.
Defined.

Lemma other_items_keep_owner_witness :
  resolve_owner [item_mint] = Ok (VStr "Ana")
  /\ resolve_owner ([item_mint] ++ [asdict (genesis_block (sample_clock 0))])
     = Ok (VStr "Ana").
Proof.
  split; [reflexivity|].
  eapply (other_items_keep_owner [item_mint] (VStr "Ana")
            (asdict (genesis_block (sample_clock 0)))).
  - reflexivity.
  - reflexivity.
  - right. left. exists (VStr "GENESIS"). repeat split.
Defined.


Lemma fingerprint_bar_collision_witness :
  payloads_are_dicts (chain tiny_world) = true
  /\ chain tiny_world <> []
  /\ files tiny_world "ana.pdf" = Some "certificate of Ana"%string
  /\ cert_fingerprint (Sha256.hexdigest "certificate of Ana") "Ana|Lee" "CS101" "2025"
     = cert_fingerprint (Sha256.hexdigest "certificate of Ana") "Ana" "Lee|CS101" "2025".
Proof.
  assert (Hne : chain tiny_world <> []) by discriminate.
  split; [reflexivity|]. split; [exact Hne|]. split; [reflexivity|].
  exact (proj1 (fingerprint_bar_collision tiny_world "Ana" "Lee" "CS101" "2025"
                  "ana.pdf" "certificate of Ana" eq_refl Hne eq_refl)).
Defined.

(* ===================================================================== *)
(** ** Further properties: when the write fails *)
(* ===================================================================== *)


(** With every write served, these are the methods and flows above. *)
Lemma io_served :
  _save_io true = _save
  /\ _create_genesis_io true = _create_genesis
  /\ __init___io true = __init__
  /\ (forall d, add_block_io true d = add_block d)
  /\ (forall s c y p, mint_flow_io true s c y p = mint_flow s c y p)
  /\ (forall fp o, transfer_flow_io true fp o = transfer_flow fp o).
Proof. repeat split. Qed.



